(** * VertexChart: access-control and persistence orchestration of [App]

    A shallow embedding of the state logic of the React component [App]
    (the access-code gate, the admin panel's code management, the analysis
    orchestrator and the startup loader) together with the two service
    modules it imports.

    - A JavaScript [number] is an IEEE-754 binary64 value: the kernel's
      primitive [float].
    - A JavaScript [string] is a [string] holding the UTF-8 bytes of the
      text.  [String.prototype.toUpperCase] is the engine's and is taken as
      given: the handlers are stated over whatever function it is.
    - Each [useState] cell is a field of [World]; the two browser storages
      are fields of [World] as well, one slot per key the component uses.
    - Every call that leaves the component ([Date.now], [Math.random],
      [analyzeChart], a supabase query) is a [Request]; a handler is a
      program [Prog World] that issues requests and continues with their
      responses. *)

From Stdlib Require Import Floats ZArith String Ascii List Bool Arith Lia.
Import ListNotations.

Local Open Scope string_scope.
Local Open Scope list_scope.

(** ** JavaScript values *)

Module JS.

(** The upper case of one ASCII character. *)
Definition upper_ascii (c : ascii) : ascii :=
  let n := nat_of_ascii c in
  if (97 <=? n)%nat && (n <=? 122)%nat then ascii_of_nat (n - 32) else c.

(** The upper case of a string of ASCII characters: the letters a to z
    become A to Z, every other character stays. *)
Fixpoint asciiUpperCase (s : string) : string :=
  match s with
  | EmptyString => EmptyString
  | String c rest => String (upper_ascii c) (asciiUpperCase rest)
  end.

(** Every byte of [s] is an ASCII character. *)
Fixpoint isAscii (s : string) : bool :=
  match s with
  | EmptyString => true
  | String c rest => (nat_of_ascii c <? 128)%nat && isAscii rest
  end.

(** What is known of [String.prototype.toUpperCase] without the Unicode
    tables: on a string of ASCII characters it is [asciiUpperCase]. *)
Definition upperOnAscii (toUpperCase : string -> string) : Prop :=
  forall s, isAscii s = true -> toUpperCase s = asciiUpperCase s.

(** Truthiness of a [string | null] value: [null] and [''] are falsy. *)
Definition truthy (v : option string) : bool :=
  match v with
  | None => false
  | Some s => negb (s =? "")
  end.

(** [a || b] on a possibly missing string. *)
Definition or_else (a : option string) (b : string) : string :=
  match a with
  | Some s => if s =? "" then b else s
  | None => b
  end.

(** [ToIntegerOrInfinity (Math.floor x)]; [None] stands for an infinity. *)
Definition floor_index (x : float) : option Z :=
  match Prim2SF x with
  | S754_zero _ => Some 0%Z
  | S754_nan => Some 0%Z
  | S754_infinity _ => None
  | S754_finite s m e =>
      let v := if s then Zneg m else Zpos m in
      Some (if (0 <=? e)%Z then (v * 2 ^ e)%Z else (v / 2 ^ (- e))%Z)
  end.

(** [s.charAt(i)]: the one-character string at [i], [''] out of range. *)
Definition charAt (s : string) (i : option Z) : string :=
  match i with
  | Some z =>
      if (0 <=? z)%Z then
        match String.get (Z.to_nat z) s with
        | Some c => String c EmptyString
        | None => EmptyString
        end
      else EmptyString
  | None => EmptyString
  end.

(** [Array.prototype.slice(0, n)]. *)
Definition slice0 {A} (n : nat) (l : list A) : list A := firstn n l.

(** An [Error] object as caught by [catch (err: any)]. *)
Record Error := mkError { message : option string }.

End JS.

(** ** types.ts *)

Module Types.

Inductive Action := BUY | SELL | NEUTRAL.

Record TradingSignal := mkTradingSignal {
  pair : string;
  action : Action;
  entry : string;
  tp : string;
  sl : string;
  confidence : float;
  reasoning : string
}.

Record Technical := mkTechnical {
  snr : string;
  ict : string;
  std : string;
  alchemist : string
}.

Record AnalysisResult := mkAnalysisResult {
  signal : TradingSignal;
  technical : Technical;
  fundamental : string;
  timestamp : string
}.

End Types.

Definition AnalysisResult : Type := Types.AnalysisResult.

(** ** services/supabase.ts *)

Module supabase.

(** [export const isSupabaseConfigured = true]. *)
Definition isSupabaseConfigured : bool := true.

Record PostgrestError := mkPostgrestError { pg_message : string }.

(** What an awaited query resolves to: [{ data, error }].  The client
    reports a failed query in [error]; it does not reject. *)
Record Response (A : Type) := mkResponse {
  data : option A;
  error : option PostgrestError
}.
Arguments mkResponse {A} _ _.
Arguments data {A} _.
Arguments error {A} _.

(** A row of table [access_codes]. *)
Record AccessCodeRow := mkAccessCodeRow {
  row_code : string;
  row_duration : float;
  row_created_at : float;
  row_expiry : float
}.

(** A row of table [history]. *)
Record HistoryRow := mkHistoryRow {
  row_data : AnalysisResult;
  row_timestamp : string
}.

End supabase.

(** ** App state *)

Module Tab.
Inductive t := dashboard | history | methodology.
End Tab.

Inductive AuthStatus := unauthorized | user | admin.

Record AccessCode := mkAccessCode {
  code : string;
  expiry : float;
  duration : float;
  createdAt : float
}.

Definition MASTER_CODE : string := "rFOt4cPdfyeFCNrB".

(** A value kept under a [localStorage] key: the text [JSON.stringify]
    produced for a value, or a text [JSON.parse] rejects (the empty text
    included).  [JSON.parse] is taken to give back the array that was
    written: this holds for arrays whose numbers are finite and not the
    negative zero (JSON writes NaN and the infinities as null and the
    negative zero as 0), as are the clock readings and the offered durations
    the component stores.  A text that parses to something other than an
    array of entries is not represented. *)
Inductive StoredText (A : Type) :=
| JSON_stringify (a : A)
| unparsable.
Arguments JSON_stringify {A} _.
Arguments unparsable {A}.

(** [JSON.parse]: [None] when it throws. *)
Definition JSON_parse {A} (t : StoredText A) : option A :=
  match t with
  | JSON_stringify a => Some a
  | unparsable => None
  end.

Record World := mkWorld {
  (* useState cells *)
  authStatus : AuthStatus;
  accessCodes : list AccessCode;
  loginCode : string;
  adminCode : string;
  showAdminInput : bool;
  activeTab : Tab.t;
  image : option string;
  isAnalyzing : bool;
  result : option AnalysisResult;
  history : list AnalysisResult;
  error : option string;
  isLoadingData : bool;
  (* sessionStorage, key 'vertex_session' *)
  vertex_session : option string;
  (* localStorage, keys 'vertex_history' and 'vertex_access_codes' *)
  vertex_history : option (StoredText (list AnalysisResult));
  vertex_access_codes : option (StoredText (list AccessCode))
}.

(** The component's state before the first effect runs. *)
Definition initial (session : option string)
    (lsHistory : option (StoredText (list AnalysisResult)))
    (lsCodes : option (StoredText (list AccessCode))) : World :=
  mkWorld unauthorized [] "" "" false Tab.dashboard None false None [] None true
          session lsHistory lsCodes.

(** *** State setters *)

Definition setAuthStatus (v : AuthStatus) (w : World) : World :=
  mkWorld v (accessCodes w) (loginCode w) (adminCode w) (showAdminInput w)
    (activeTab w) (image w) (isAnalyzing w) (result w) (history w) (error w)
    (isLoadingData w) (vertex_session w) (vertex_history w) (vertex_access_codes w).

Definition setAccessCodes (f : list AccessCode -> list AccessCode) (w : World) : World :=
  mkWorld (authStatus w) (f (accessCodes w)) (loginCode w) (adminCode w) (showAdminInput w)
    (activeTab w) (image w) (isAnalyzing w) (result w) (history w) (error w)
    (isLoadingData w) (vertex_session w) (vertex_history w) (vertex_access_codes w).

Definition setLoginCode (v : string) (w : World) : World :=
  mkWorld (authStatus w) (accessCodes w) v (adminCode w) (showAdminInput w)
    (activeTab w) (image w) (isAnalyzing w) (result w) (history w) (error w)
    (isLoadingData w) (vertex_session w) (vertex_history w) (vertex_access_codes w).

Definition setAdminCode (v : string) (w : World) : World :=
  mkWorld (authStatus w) (accessCodes w) (loginCode w) v (showAdminInput w)
    (activeTab w) (image w) (isAnalyzing w) (result w) (history w) (error w)
    (isLoadingData w) (vertex_session w) (vertex_history w) (vertex_access_codes w).

Definition setImage (v : option string) (w : World) : World :=
  mkWorld (authStatus w) (accessCodes w) (loginCode w) (adminCode w) (showAdminInput w)
    (activeTab w) v (isAnalyzing w) (result w) (history w) (error w)
    (isLoadingData w) (vertex_session w) (vertex_history w) (vertex_access_codes w).

Definition setIsAnalyzing (v : bool) (w : World) : World :=
  mkWorld (authStatus w) (accessCodes w) (loginCode w) (adminCode w) (showAdminInput w)
    (activeTab w) (image w) v (result w) (history w) (error w)
    (isLoadingData w) (vertex_session w) (vertex_history w) (vertex_access_codes w).

Definition setResult (v : option AnalysisResult) (w : World) : World :=
  mkWorld (authStatus w) (accessCodes w) (loginCode w) (adminCode w) (showAdminInput w)
    (activeTab w) (image w) (isAnalyzing w) v (history w) (error w)
    (isLoadingData w) (vertex_session w) (vertex_history w) (vertex_access_codes w).

Definition setHistory (f : list AnalysisResult -> list AnalysisResult) (w : World) : World :=
  mkWorld (authStatus w) (accessCodes w) (loginCode w) (adminCode w) (showAdminInput w)
    (activeTab w) (image w) (isAnalyzing w) (result w) (f (history w)) (error w)
    (isLoadingData w) (vertex_session w) (vertex_history w) (vertex_access_codes w).

Definition setError (v : option string) (w : World) : World :=
  mkWorld (authStatus w) (accessCodes w) (loginCode w) (adminCode w) (showAdminInput w)
    (activeTab w) (image w) (isAnalyzing w) (result w) (history w) v
    (isLoadingData w) (vertex_session w) (vertex_history w) (vertex_access_codes w).

Definition setIsLoadingData (v : bool) (w : World) : World :=
  mkWorld (authStatus w) (accessCodes w) (loginCode w) (adminCode w) (showAdminInput w)
    (activeTab w) (image w) (isAnalyzing w) (result w) (history w) (error w)
    v (vertex_session w) (vertex_history w) (vertex_access_codes w).

(** *** Browser storage *)

Module sessionStorage.
Definition getItem (w : World) : option string := vertex_session w.
Definition setItem (v : string) (w : World) : World :=
  mkWorld (authStatus w) (accessCodes w) (loginCode w) (adminCode w) (showAdminInput w)
    (activeTab w) (image w) (isAnalyzing w) (result w) (history w) (error w)
    (isLoadingData w) (Some v) (vertex_history w) (vertex_access_codes w).
Definition removeItem (w : World) : World :=
  mkWorld (authStatus w) (accessCodes w) (loginCode w) (adminCode w) (showAdminInput w)
    (activeTab w) (image w) (isAnalyzing w) (result w) (history w) (error w)
    (isLoadingData w) None (vertex_history w) (vertex_access_codes w).
End sessionStorage.

Module localStorage.
Definition setItem_history (v : list AnalysisResult) (w : World) : World :=
  mkWorld (authStatus w) (accessCodes w) (loginCode w) (adminCode w) (showAdminInput w)
    (activeTab w) (image w) (isAnalyzing w) (result w) (history w) (error w)
    (isLoadingData w) (vertex_session w) (Some (JSON_stringify v)) (vertex_access_codes w).
Definition removeItem_history (w : World) : World :=
  mkWorld (authStatus w) (accessCodes w) (loginCode w) (adminCode w) (showAdminInput w)
    (activeTab w) (image w) (isAnalyzing w) (result w) (history w) (error w)
    (isLoadingData w) (vertex_session w) None (vertex_access_codes w).
Definition setItem_access_codes (v : list AccessCode) (w : World) : World :=
  mkWorld (authStatus w) (accessCodes w) (loginCode w) (adminCode w) (showAdminInput w)
    (activeTab w) (image w) (isAnalyzing w) (result w) (history w) (error w)
    (isLoadingData w) (vertex_session w) (vertex_history w) (Some (JSON_stringify v)).
End localStorage.


(** ** Calls that leave the component *)

Inductive Request :=
| Date_now
| Math_random
| analyzeChart (base64Image : string)
| select_access_codes
| select_history
| insert_history (row : supabase.HistoryRow)
| delete_history
| insert_access_codes (row : supabase.AccessCodeRow)
| delete_access_codes (eq_code : string).

(** What each call gives back.  [analyzeChart] either resolves with a
    result or rejects with an [Error]; a supabase query always resolves. *)
Definition Response (r : Request) : Type :=
  match r with
  | Date_now => float
  | Math_random => float
  | analyzeChart _ => (AnalysisResult + JS.Error)%type
  | select_access_codes => supabase.Response (list supabase.AccessCodeRow)
  | select_history => supabase.Response (list supabase.HistoryRow)
  | insert_history _ => supabase.Response unit
  | delete_history => supabase.Response unit
  | insert_access_codes _ => supabase.Response unit
  | delete_access_codes _ => supabase.Response unit
  end.

(** A handler: a finite tree of calls, each continued with its response. *)
Inductive Prog (A : Type) : Type :=
| Ret (a : A)
| Vis (r : Request) (k : Response r -> Prog A).
Arguments Ret {A} _.
Arguments Vis {A} _ _.

Fixpoint bind {A B : Type} (p : Prog A) (f : A -> Prog B) : Prog B :=
  match p with
  | Ret a => f a
  | Vis r k => Vis r (fun x => bind (k x) f)
  end.

Definition call (r : Request) : Prog (Response r) := Vis r Ret.

Declare Scope prog_scope.
Delimit Scope prog_scope with prog.
Notation "x <- p ;; q" := (bind p (fun x => q))
  (at level 61, p at next level, right associativity) : prog_scope.
Local Open Scope prog_scope.

(** The outside world: the response to the [n]-th call of a run. *)
Definition Env : Type := forall r : Request, nat -> Response r.

(** Runs a handler against the outside world; the calls it made, in order,
    come back with its result.  The handler runs to its end: no other event
    is handled between a call and its continuation.  Where a property turns
    on what happens while a call is awaited, the continuation is given on
    its own, over the state current when the call resolves
    ([runAnalysis_resumed]). *)
Fixpoint run {A : Type} (env : Env) (n : nat) (p : Prog A) : A * list Request :=
  match p with
  | Ret a => (a, [])
  | Vis r k => let (a, t) := run env (S n) (k (env r n)) in (a, r :: t)
  end.

Definition exec {A : Type} (env : Env) (p : Prog A) : A := fst (run env 0 p).
Definition calls {A : Type} (env : Env) (p : Prog A) : list Request := snd (run env 0 p).

(** ** The component's handlers *)

Section App.

(** [isSupabaseConfigured], imported from services/supabase. *)
Variable isSupabaseConfigured : bool.

(** [String.prototype.toUpperCase], the engine's own.  It follows the Unicode
    case mappings (it takes "ß" to "SS"), which the component does not
    contain: the handlers take it as it is. *)
Variable toUpperCase : string -> string.

Definition row_to_AccessCode (c : supabase.AccessCodeRow) : AccessCode :=
  {| code := supabase.row_code c;
     expiry := supabase.row_expiry c;
     duration := supabase.row_duration c;
     createdAt := supabase.row_created_at c |}.

Definition fetchData (w0 : World) : Prog World :=
  let w := setIsLoadingData true w0 in
  w' <- (if isSupabaseConfigured then
           codes <- call select_access_codes ;;
           let w1 :=
             match supabase.error codes, supabase.data codes with
             | None, Some rows => setAccessCodes (fun _ => map row_to_AccessCode rows) w
             | _, _ => w
             end in
           historyData <- call select_history ;;
           Ret match supabase.error historyData, supabase.data historyData with
               | None, Some rows => setHistory (fun _ => map supabase.row_data rows) w1
               | _, _ => w1
               end
         else
           let w1 :=
             match vertex_history w with
             | Some savedHistory =>
                 match JSON_parse savedHistory with
                 | Some h => setHistory (fun _ => h) w
                 | None => w
                 end
             | None => w
             end in
           Ret match vertex_access_codes w1 with
               | Some savedCodes =>
                   match JSON_parse savedCodes with
                   | Some c => setAccessCodes (fun _ => c) w1
                   | None => w1
                   end
               | None => w1
               end) ;;
  Ret (setIsLoadingData false w').

(** The session check of the startup effect. *)
Definition checkSession (w : World) : World :=
  match sessionStorage.getItem w with
  | Some session =>
      if session =? "admin" then setAuthStatus admin w
      else if session =? "user" then setAuthStatus user w
      else w
  | None => w
  end.

(** The startup effect: [fetchData()] and the session check. *)
Definition startup (w : World) : Prog World :=
  w' <- fetchData w ;;
  Ret (checkSession w').

Definition runAnalysis (w : World) : Prog World :=
  match image w with
  | Some img =>
      if JS.truthy (Some img) then
        let w1 := setError None (setIsAnalyzing true w) in
        outcome <- call (analyzeChart img) ;;
        match outcome with
        | inl data =>
            let w2 := setResult (Some data) w1 in
            w3 <- (if isSupabaseConfigured then
                     _ <- call (insert_history
                                  (supabase.mkHistoryRow data (Types.timestamp data))) ;;
                     Ret w2
                   else
                     Ret (localStorage.setItem_history
                            (JS.slice0 20 (data :: history w)) w2)) ;;
            Ret (setIsAnalyzing false
                   (setHistory (fun prev => JS.slice0 20 (data :: prev)) w3))
        | inr err =>
            Ret (setIsAnalyzing false
                   (setError
                      (Some (JS.or_else (JS.message err)
                                        "Analysis failed. Please try again."))
                      w1))
        end
      else Ret (setError (Some "Please upload a chart image first.") w)
  | None => Ret (setError (Some "Please upload a chart image first.") w)
  end.

Definition clearHistory (w : World) : Prog World :=
  if negb isSupabaseConfigured then
    Ret (localStorage.removeItem_history (setHistory (fun _ => []) w))
  else
    r <- call delete_history ;;
    match supabase.error r with
    | None => Ret (setHistory (fun _ => []) w)
    | Some _ => Ret (setError (Some "Failed to clear history from database.") w)
    end.

(** The [onChange] handlers of the two login inputs. *)
Definition onLoginCodeChange (value : string) (w : World) : World :=
  setLoginCode (toUpperCase value) w.

Definition onAdminCodeChange (value : string) (w : World) : World :=
  setAdminCode value w.

Definition handleUserLogin (w : World) : Prog World :=
  now <- call Date_now ;;
  let validCode :=
    find (fun c => (code c =? loginCode w) && PrimFloat.ltb now (expiry c))
         (accessCodes w) in
  match validCode with
  | Some _ =>
      Ret (setError None (sessionStorage.setItem "user" (setAuthStatus user w)))
  | None => Ret (setError (Some "Invalid or Expired Access Code") w)
  end.

Definition handleAdminLogin (w : World) : World :=
  if adminCode w =? MASTER_CODE then
    setError None (sessionStorage.setItem "admin" (setAuthStatus admin w))
  else setError (Some "Invalid Master Code") w.

Definition logout (w : World) : World :=
  setAdminCode "" (setLoginCode "" (sessionStorage.removeItem (setAuthStatus unauthorized w))).

Definition chars : string := "ABCDEFGHIJKLMNOPQRSTUVWXYZ0123456789".

Definition length_number (s : string) : float :=
  PrimFloat.of_uint63 (Uint63.of_Z (Z.of_nat (String.length s))).

(** The loop [for (let i = 0; i < 8; i++) code += chars.charAt(...)], with
    [i] iterations left. *)
Fixpoint randomCode (i : nat) (code' : string) : Prog string :=
  match i with
  | O => Ret code'
  | S i' =>
      r <- call Math_random ;;
      randomCode i' (code' ++ JS.charAt chars (JS.floor_index (r * length_number chars)%float))
  end.

Definition generateCode (days : float) (w : World) : Prog World :=
  code' <- randomCode 8 "" ;;
  now <- call Date_now ;;
  let newCode :=
    {| code := code';
       duration := days;
       createdAt := now;
       expiry := (now + (days * 24 * 60 * 60 * 1000))%float |} in
  w1 <- (if isSupabaseConfigured then
           r <- call (insert_access_codes
                        (supabase.mkAccessCodeRow (code newCode) (duration newCode)
                                                  (createdAt newCode) (expiry newCode))) ;;
           Ret match supabase.error r with
               | Some _ => inl (setError (Some "Failed to save code to database.") w)
               | None => inr w
               end
         else
           let updatedCodes := newCode :: accessCodes w in
           Ret (inr (localStorage.setItem_access_codes updatedCodes w))) ;;
  match w1 with
  | inl returned => Ret returned
  | inr w2 => Ret (setAccessCodes (fun prev => newCode :: prev) w2)
  end.

Definition deleteCode (code0 : string) (w : World) : Prog World :=
  w1 <- (if isSupabaseConfigured then
           r <- call (delete_access_codes code0) ;;
           Ret match supabase.error r with
               | Some _ => inl (setError (Some "Failed to delete code from database.") w)
               | None => inr w
               end
         else
           let updatedCodes := filter (fun c => negb (code c =? code0)) (accessCodes w) in
           Ret (inr (localStorage.setItem_access_codes updatedCodes w))) ;;
  match w1 with
  | inl returned => Ret returned
  | inr w2 => Ret (setAccessCodes (fun prev => filter (fun c => negb (code c =? code0)) prev) w2)
  end.

End App.

(** ** Outside worlds, sample data and the notions the statements use *)

Definition noResponse {A : Type} : supabase.Response A := supabase.mkResponse None None.

Definition failed {A : Type} (msg : string) : supabase.Response A :=
  supabase.mkResponse None (Some (supabase.mkPostgrestError msg)).

(** Every query succeeds, the clock reads [now], [analyzeChart] resolves
    with [data], and [Math.random] gives [r]. *)
Definition online (now r : float) (data : AnalysisResult) : Env :=
  fun req _ =>
    match req as q return Response q with
    | Date_now => now
    | Math_random => r
    | analyzeChart _ => inl data
    | select_access_codes => supabase.mkResponse (Some []) None
    | select_history => supabase.mkResponse (Some []) None
    | insert_history _ => noResponse
    | delete_history => noResponse
    | insert_access_codes _ => noResponse
    | delete_access_codes _ => noResponse
    end.

(** As [online], but every write to the remote store fails. *)
Definition writesFail (now r : float) (data : AnalysisResult) : Env :=
  fun req n =>
    match req as q return Response q with
    | insert_history _ => failed "insert failed"
    | delete_history => failed "delete failed"
    | insert_access_codes _ => failed "insert failed"
    | delete_access_codes _ => failed "delete failed"
    | q => online now r data q n
    end.

Definition sampleResult (stamp : string) : AnalysisResult :=
  Types.mkAnalysisResult
    (Types.mkTradingSignal "EURUSD" Types.BUY "1.0850" "1.0900" "1.0820" 80%float "MSS")
    (Types.mkTechnical "snr" "ict" "std" "alchemist")
    "fundamental" stamp.

Definition sampleCode : AccessCode :=
  {| code := "AB12CD34"; expiry := 3600000%float;
     duration := (1 / 24)%float; createdAt := 0%float |}.

(** Logged out, one access code issued, [typed] in the access-code input. *)
Definition loginScreen (typed : string) : World :=
  setLoginCode typed (setAccessCodes (fun _ => [sampleCode]) (initial None None None)).

(** The predicate [handleUserLogin] hands to [find]. *)
Definition isValidCode (login : string) (now : float) (c : AccessCode) : bool :=
  (code c =? login) && PrimFloat.ltb now (expiry c).

(** Some code of the collection equals [login] and has not expired at [now]. *)
Definition validCodeExists (codes : list AccessCode) (login : string) (now : float) : Prop :=
  exists c, In c codes /\ code c = login /\ PrimFloat.ltb now (expiry c) = true.

(** One visit: log out, type [s] in the access-code input, press Enter. *)
Definition visit (toUpperCase : string -> string) (s : string) (w : World) (env : Env) : World :=
  exec env (handleUserLogin (onLoginCodeChange toUpperCase s (logout w))).

(** The states after each of a series of visits, one outside world per visit. *)
Fixpoint visits (toUpperCase : string -> string) (s : string) (envs : list Env) (w : World) : list World :=
  match envs with
  | [] => []
  | env :: rest => visit toUpperCase s w env :: visits toUpperCase s rest (visit toUpperCase s w env)
  end.

Definition noImageMessage : string := "Please upload a chart image first.".

(** The string the loop of [generateCode] builds from the first eight
    responses of [Math.random]. *)
Definition drawnCode (env : Env) : string := exec env (randomCode 8 "").

(** The [newCode] object of [generateCode]: the clock is read once, as the
    ninth call, and that one reading gives both [createdAt] and [expiry]. *)
Definition newCode (env : Env) (days : float) : AccessCode :=
  let now := env Date_now 8 in
  {| code := drawnCode env;
     duration := days;
     createdAt := now;
     expiry := (now + (days * 24 * 60 * 60 * 1000))%float |}.

Definition newRow (env : Env) (days : float) : supabase.AccessCodeRow :=
  supabase.mkAccessCodeRow (code (newCode env days)) (duration (newCode env days))
                           (createdAt (newCode env days)) (expiry (newCode env days)).

Definition keepOthers (code0 : string) (c : AccessCode) : bool := negb (code c =? code0).

(** A session with an image staged for analysis. *)
Definition staged : World :=
  setImage (Some "data:image/jpeg;base64,AAAA") (setAuthStatus user (loginScreen "")).

Definition absent (code0 : string) (codes : list AccessCode) : Prop :=
  forall c, In c codes -> code c <> code0.

(** Local storage holding a history of 21 entries at startup. *)
Definition overfull : World :=
  initial None (Some (JSON_stringify (repeat (sampleResult "t") 21))) None.

Inductive HistoryAction := RunAnalysis | ClearHistory.

(** One user action on the history, against its own outside world. *)
Definition act (cfg : bool) (w : World) (a : HistoryAction * Env) : World :=
  match fst a with
  | RunAnalysis => exec (snd a) (runAnalysis cfg w)
  | ClearHistory => exec (snd a) (clearHistory cfg w)
  end.

Definition acts (cfg : bool) (l : list (HistoryAction * Env)) (w : World) : World :=
  fold_left (act cfg) l w.

(** A clear empties the list unless the remote delete reports an error. *)
Definition cleared (cfg : bool) (env : Env) : bool :=
  if cfg then
    match supabase.error (env delete_history 0) with
    | None => true
    | Some _ => false
    end
  else true.

(** The results that arrived since the last clear that took effect, in
    order of arrival (oldest first), continuing the log [log]. *)
Fixpoint arrivals (cfg : bool) (img : string) (l : list (HistoryAction * Env))
    (log : list AnalysisResult) : list AnalysisResult :=
  match l with
  | [] => log
  | (RunAnalysis, env) :: rest =>
      match env (analyzeChart img) 0 with
      | inl data => arrivals cfg img rest (log ++ [data])
      | inr _ => arrivals cfg img rest log
      end
  | (ClearHistory, env) :: rest =>
      arrivals cfg img rest (if cleared cfg env then [] else log)
  end.

(** A successful analysis that resolves with [data]; the history insert
    reports [inserted]. *)
Definition succeeds (data : AnalysisResult) (inserted : supabase.Response unit) : Env :=
  fun req n =>
    match req as q return Response q with
    | analyzeChart _ => inl data
    | insert_history _ => inserted
    | q => online 0%float 0%float data q n
    end.

(** Twenty-one results, stamped "A" (the first to arrive) to "U". *)
Definition stamps : list string :=
  map (fun n => String (ascii_of_nat (65 + n)) EmptyString) (seq 0 21).

Definition twentyOne : list (HistoryAction * Env) :=
  map (fun d => (RunAnalysis, succeeds d noResponse)) (map sampleResult stamps).

(** The durations the admin panel offers: 1 hour, 5 hours, 3, 7 and 30 days. *)
Definition offeredDays : list float :=
  [(1 / 24)%float; (5 / 24)%float; 3%float; 7%float; 30%float].

(** The milliseconds [generateCode] adds, and the single product of the
    specification. *)
Definition lifetime (days : float) : float := (days * 24 * 60 * 60 * 1000)%float.
Definition lifetime_spec (days : float) : float := (days * 86400000)%float.

(** A whole number of days as a [number]. *)
Definition wholeDays (n : nat) : float :=
  PrimFloat.of_uint63 (Uint63.of_Z (Z.of_nat n)).

(** A duration of a little over five days, and an instant on 3 Nov 2025. *)
Definition oddDays : float := 0x1.439f78274013bp+2%float.
Definition nov2025 : float := 1762128000000%float.

(** ** The remaining handlers of the component *)

Definition setShowAdminInput (v : bool) (w : World) : World :=
  mkWorld (authStatus w) (accessCodes w) (loginCode w) (adminCode w) v
    (activeTab w) (image w) (isAnalyzing w) (result w) (history w) (error w)
    (isLoadingData w) (vertex_session w) (vertex_history w) (vertex_access_codes w).

Definition setActiveTab (v : Tab.t) (w : World) : World :=
  mkWorld (authStatus w) (accessCodes w) (loginCode w) (adminCode w) (showAdminInput w)
    v (image w) (isAnalyzing w) (result w) (history w) (error w)
    (isLoadingData w) (vertex_session w) (vertex_history w) (vertex_access_codes w).

(** The card of the history tab at position [idx]:
    [onClick={() => { setResult(item); setActiveTab('dashboard'); }}]. *)
Definition openHistoryItem (idx : nat) (w : World) : World :=
  match nth_error (history w) idx with
  | Some item => setActiveTab Tab.dashboard (setResult (Some item) w)
  | None => w
  end.

(** Everything a user can trigger.  [Ev_imageLoaded] is the last statement
    of the [img.onload] callback of [handleImageUpload], [setImage(compressed)];
    the decoding and re-encoding before it are the browser's. *)
Inductive Event :=
| Ev_loginCodeChange (value : string)
| Ev_adminCodeChange (value : string)
| Ev_showAdminInput
| Ev_handleUserLogin
| Ev_handleAdminLogin
| Ev_logout
| Ev_generateCode (days : float)
| Ev_deleteCode (code0 : string)
| Ev_setActiveTab (tab : Tab.t)
| Ev_imageLoaded (compressed : string)
| Ev_runAnalysis
| Ev_resetResult
| Ev_clearHistory
| Ev_openHistoryItem (idx : nat).

(** The handler bound to an event, run against the outside world that
    comes with it. *)
Definition handle (toUpperCase : string -> string) (cfg : bool) (w : World) (e : Event * Env) : World :=
  match fst e with
  | Ev_loginCodeChange value => onLoginCodeChange toUpperCase value w
  | Ev_adminCodeChange value => onAdminCodeChange value w
  | Ev_showAdminInput => setShowAdminInput true w
  | Ev_handleUserLogin => exec (snd e) (handleUserLogin w)
  | Ev_handleAdminLogin => handleAdminLogin w
  | Ev_logout => logout w
  | Ev_generateCode days => exec (snd e) (generateCode cfg days w)
  | Ev_deleteCode code0 => exec (snd e) (deleteCode cfg code0 w)
  | Ev_setActiveTab tab => setActiveTab tab w
  | Ev_imageLoaded compressed => setImage (Some compressed) w
  | Ev_runAnalysis => exec (snd e) (runAnalysis cfg w)
  | Ev_resetResult => setResult None w
  | Ev_clearHistory => exec (snd e) (clearHistory cfg w)
  | Ev_openHistoryItem idx => openHistoryItem idx w
  end.

Definition handleAll (toUpperCase : string -> string) (cfg : bool) (l : list (Event * Env)) (w : World) : World :=
  fold_left (handle toUpperCase cfg) l w.

(** The component mounted afresh over the storages [w] leaves behind (a
    reload of the tab), after its startup effect. *)
Definition reload (cfg : bool) (env : Env) (w : World) : World :=
  exec env (startup cfg (initial (vertex_session w) (vertex_history w)
                                 (vertex_access_codes w))).

(** The status the session check gives a freshly mounted component. *)
Definition restored (marker : option string) : AuthStatus :=
  authStatus (checkSession (initial marker None None)).

(** Every character of [s] occurs in [alphabet]. *)
Fixpoint allIn (alphabet s : string) : bool :=
  match s with
  | EmptyString => true
  | String c rest =>
      match String.index 0 (String c EmptyString) alphabet with
      | Some _ => allIn alphabet rest
      | None => false
      end
  end.

(** The position [generateCode] reads for its [n]-th character. *)
Definition drawIndex (env : Env) (n : nat) : option Z :=
  JS.floor_index (env Math_random n * length_number chars)%float.

(** ** String methods used by services/geminiService *)

Module JSString.

(** [s.split(sep)] for a one-character separator. *)
Fixpoint split (sep : ascii) (s : string) : list string :=
  match s with
  | EmptyString => [EmptyString]
  | String c rest =>
      if Ascii.eqb c sep then EmptyString :: split sep rest
      else match split sep rest with
           | seg :: segs => String c seg :: segs
           | [] => [String c EmptyString]
           end
  end.

(** [s.includes(pat)]. *)
Fixpoint includes (pat s : string) : bool :=
  String.prefix pat s ||
  match s with
  | EmptyString => false
  | String _ rest => includes pat rest
  end.

(** [s.replace(/pat/g, '')] for a literal, non-empty [pat]: scanning from
    the left, each occurrence is dropped and the scan resumes behind it.
    [skip] counts the characters of the current occurrence still to drop. *)
Fixpoint remove_go (pat : string) (skip : nat) (s : string) : string :=
  match s with
  | EmptyString => EmptyString
  | String c rest =>
      match skip with
      | S k => remove_go pat k rest
      | O =>
          if String.prefix pat s then remove_go pat (String.length pat - 1) rest
          else String c (remove_go pat 0 rest)
      end
  end.

Definition removeAll (pat s : string) : string := remove_go pat 0 s.

(** The string of the bytes [l]. *)
Definition bytes (l : list nat) : string :=
  fold_right (fun n s => String (ascii_of_nat n) s) EmptyString l.

(** The white space and the line terminators of ECMAScript, which [trim]
    strips, each as the UTF-8 bytes of the character: U+0009 to U+000D,
    U+0020, U+00A0, U+1680, U+2000 to U+200A, U+2028, U+2029, U+202F, U+205F,
    U+3000 and U+FEFF. *)
Definition whiteSpace : list string :=
  map bytes
    [[9]; [10]; [11]; [12]; [13]; [32];
     [194; 160];
     [225; 154; 128];
     [226; 128; 128]; [226; 128; 129]; [226; 128; 130]; [226; 128; 131];
     [226; 128; 132]; [226; 128; 133]; [226; 128; 134]; [226; 128; 135];
     [226; 128; 136]; [226; 128; 137]; [226; 128; 138];
     [226; 128; 168]; [226; 128; 169]; [226; 128; 175];
     [226; 129; 159];
     [227; 128; 128];
     [239; 187; 191]].

(** [s] begins with [pat]. *)
Fixpoint startsWith (pat s : string) : bool :=
  match pat with
  | EmptyString => true
  | String a p =>
      match s with
      | EmptyString => false
      | String b r => Ascii.eqb a b && startsWith p r
      end
  end.

Fixpoint reverse (s : string) : string :=
  match s with
  | EmptyString => EmptyString
  | String c rest => reverse rest ++ String c EmptyString
  end.

(** The number of bytes of the entry of [pats] that [s] begins with, 0 when
    it begins with none. *)
Definition whiteLength (pats : list string) (s : string) : nat :=
  match find (fun p => startsWith p s) pats with
  | Some p => String.length p
  | None => 0
  end.

(** [s] without the entries of [pats] it begins with; [skip] counts the
    bytes of the current entry still to drop. *)
Fixpoint dropWhite (pats : list string) (skip : nat) (s : string) : string :=
  match s with
  | EmptyString => EmptyString
  | String c rest =>
      match skip with
      | S k => dropWhite pats k rest
      | O =>
          match whiteLength pats s with
          | O => s
          | S k => dropWhite pats k rest
          end
      end
  end.

Definition trimStart (s : string) : string := dropWhite whiteSpace 0 s.

Definition trimEnd (s : string) : string :=
  reverse (dropWhite (map reverse whiteSpace) 0 (reverse s)).

(** [s.trim()]. *)
Definition trim (s : string) : string := trimEnd (trimStart s).





(** [s] has no character [c]. *)
Fixpoint lacks (c : ascii) (s : string) : bool :=
  match s with
  | EmptyString => true
  | String d rest => negb (Ascii.eqb d c) && lacks c rest
  end.

End JSString.

(** ** services/geminiService.ts *)

Module geminiService.

Inductive ThinkingLevel := LOW | HIGH.

Record InlineData := mkInlineData {
  mimeType : string;
  data : string
}.

(** The argument of [ai.models.generateContent]. *)
Record GenerateContentParameters := mkParameters {
  model : string;
  text : string;
  inlineData : InlineData;
  responseMimeType : string;
  thinkingLevel : ThinkingLevel
}.

(** [response.text] is all the function reads of the response. *)
Record GenerateContentResponse := mkContentResponse {
  response_text : option string
}.

Definition notConfigured : string :=
  "GEMINI_API_KEY is not configured. Please add it to your environment variables.".
Definition noResponseReceived : string := "No response received from AI model.".
Definition invalidKey : string := "Invalid Gemini API Key. Please check your configuration.".

(** [base64Image.split(',')[1] || base64Image]. *)
Definition payload (base64Image : string) : string :=
  JS.or_else (nth_error (JSString.split "," base64Image) 1) base64Image.

(** [text.replace(/```json/g, '').replace(/```/g, '').trim()]. *)
Definition cleanJson (text0 : string) : string :=
  JSString.trim (JSString.removeAll "```" (JSString.removeAll "```json" text0)).

(** The [catch (error: any)] block: what it throws for a caught [error]. *)
Definition rethrow (caught : JS.Error) : JS.Error :=
  match JS.message caught with
  | Some m =>
      if JSString.includes "API_KEY_INVALID" m then JS.mkError (Some invalidKey)
      else caught
  | None => caught
  end.

Section Service.

(** The prompt, a constant template literal of the module. *)
Variable prompt : string.

(** [process.env.GEMINI_API_KEY]. *)
Variable GEMINI_API_KEY : option string.

(** [ai.models.generateContent]: resolves with a response or rejects. *)
Variable generateContent : GenerateContentParameters -> GenerateContentResponse + JS.Error.

(** [JSON.parse] at the type the caller assumes: the object read, or the
    [SyntaxError] thrown. *)
Variable parse : string -> AnalysisResult + JS.Error.

(** [new Date().toISOString()] at the moment of the return. *)
Variable toISOString : string.

Definition parameters (base64Image : string) : GenerateContentParameters :=
  {| model := "gemini-3-flash-preview";
     text := prompt;
     inlineData := {| mimeType := "image/jpeg"; data := payload base64Image |};
     responseMimeType := "application/json";
     thinkingLevel := LOW |}.

(** The promise's outcome ([inl]: resolved, [inr]: rejected), with the
    requests sent to the model. *)
Definition analyzeChart (base64Image : string)
  : (AnalysisResult + JS.Error) * list GenerateContentParameters :=
  if negb (JS.truthy GEMINI_API_KEY) then
    (inr (JS.mkError (Some notConfigured)), [])
  else
    (match generateContent (parameters base64Image) with
     | inl response =>
         if negb (JS.truthy (response_text response)) then
           inr (rethrow (JS.mkError (Some noResponseReceived)))
         else
           match parse (cleanJson (JS.or_else (response_text response) "")) with
           | inl parsed =>
               inl (Types.mkAnalysisResult (Types.signal parsed) (Types.technical parsed)
                                           (Types.fundamental parsed) toISOString)
           | inr caught => inr (rethrow caught)
           end
     | inr caught => inr (rethrow caught)
     end,
     [parameters base64Image]).

End Service.

End geminiService.

(** An outside world whose [analyzeChart] is the service module, over the
    given key, model and clock. *)
Definition withService (prompt : string) (key : option string)
    (generateContent : geminiService.GenerateContentParameters ->
                       geminiService.GenerateContentResponse + JS.Error)
    (parse : string -> AnalysisResult + JS.Error) (toISOString : string)
    (env : Env) : Env :=
  fun req n =>
    match req as q return Response q with
    | analyzeChart img =>
        fst (geminiService.analyzeChart prompt key generateContent parse toISOString img)
    | q => env q n
    end.

(** A model that answers every request with the text [answer]. *)
Definition answers (answer : string)
  : geminiService.GenerateContentParameters ->
    geminiService.GenerateContentResponse + JS.Error :=
  fun _ => inl (geminiService.mkContentResponse (Some answer)).

(** A model whose every request fails with [msg]. *)
Definition rejects (msg : string)
  : geminiService.GenerateContentParameters ->
    geminiService.GenerateContentResponse + JS.Error :=
  fun _ => inr (JS.mkError (Some msg)).

(** A parser that reads every text as [sampleResult "model"]. *)
Definition parsesAll : string -> AnalysisResult + JS.Error :=
  fun _ => inl (sampleResult "model").

(** What the remote branch of [fetchData] does with each answer. *)
Definition codesLoaded (r : supabase.Response (list supabase.AccessCodeRow))
    (w : World) : World :=
  match supabase.error r, supabase.data r with
  | None, Some rows => setAccessCodes (fun _ => map row_to_AccessCode rows) w
  | _, _ => w
  end.

Definition historyLoaded (r : supabase.Response (list supabase.HistoryRow))
    (w : World) : World :=
  match supabase.error r, supabase.data r with
  | None, Some rows => setHistory (fun _ => map supabase.row_data rows) w
  | _, _ => w
  end.

(** The characters read at positions [n], [n+1], ... of the responses of
    [Math.random], [i] of them, one after the other. *)
Fixpoint draws (env : Env) (n i : nat) : string :=
  match i with
  | O => EmptyString
  | S i' => JS.charAt chars (drawIndex env n) ++ draws env (S n) i'
  end.

(** The part of [runAnalysis] behind [await analyzeChart(image)], with local
    storage as the store, once the call has resolved with [data]: [setResult],
    the write of line 186, [setHistory] and the [finally] block.  The
    component may have handled other events during the await, so the setters
    act on [live], the state it has by then, while line 186 reads the
    [history] of [closure], the render the handler was created in. *)
Definition runAnalysis_resumed (closure live : World) (data : AnalysisResult) : World :=
  setIsAnalyzing false
    (setHistory (fun prev => JS.slice0 20 (data :: prev))
       (localStorage.setItem_history (JS.slice0 20 (data :: history closure))
          (setResult (Some data) live))).

(** A session with one entry in its history and an image staged. *)
Definition oneEntry : World := setHistory (fun _ => [sampleResult "old"]) staged.

(** * Properties *)

(** ** Login *)

Lemma isValidCode_true login now c :
  isValidCode login now c = true <->
  code c = login /\ PrimFloat.ltb now (expiry c) = true.
Proof.
  unfold isValidCode. rewrite andb_true_iff, String.eqb_eq. tauto.
Qed.

Lemma find_validCode codes login now :
  (exists c, find (isValidCode login now) codes = Some c) <->
  validCodeExists codes login now.
Proof.
  unfold validCodeExists. split.
  - intros [c Hc]. apply find_some in Hc as [Hin Hv].
    apply isValidCode_true in Hv. exists c. tauto.
  - intros [c (Hin & Hcode & Hlt)].
    destruct (find (isValidCode login now) codes) as [c'|] eqn:Hf.
    + now exists c'.
    + exfalso. pose proof (find_none _ _ Hf c Hin) as Hn.
      assert (isValidCode login now c = true) by (apply isValidCode_true; tauto).
      congruence.
Qed.

Lemma handleUserLogin_eq (env : Env) (w : World) :
  exec env (handleUserLogin w) =
  match find (isValidCode (loginCode w) (env Date_now 0)) (accessCodes w) with
  | Some _ => setError None (sessionStorage.setItem "user" (setAuthStatus user w))
  | None => setError (Some "Invalid or Expired Access Code") w
  end.
Proof.
  unfold exec, handleUserLogin, isValidCode. cbn.
  destruct (find _ (accessCodes w)); reflexivity.
Qed.

Lemma handleUserLogin_success (env : Env) (w : World) :
  validCodeExists (accessCodes w) (loginCode w) (env Date_now 0) ->
  exec env (handleUserLogin w) =
  setError None (sessionStorage.setItem "user" (setAuthStatus user w)).
Proof.
  intros Hv. rewrite handleUserLogin_eq.
  apply find_validCode in Hv as [c ->]. reflexivity.
Qed.

Lemma handleUserLogin_failure (env : Env) (w : World) :
  ~ validCodeExists (accessCodes w) (loginCode w) (env Date_now 0) ->
  exec env (handleUserLogin w) = setError (Some "Invalid or Expired Access Code") w.
Proof.
  intros Hv. rewrite handleUserLogin_eq.
  destruct (find _ (accessCodes w)) as [c|] eqn:Hf; [|reflexivity].
  exfalso. apply Hv. apply find_validCode. now exists c.
Qed.

Lemma validCodeExists_dec codes login now :
  validCodeExists codes login now \/ ~ validCodeExists codes login now.
Proof.
  destruct (find (isValidCode login now) codes) as [c|] eqn:Hf.
  - left. apply find_validCode. now exists c.
  - right. intros Hv. apply find_validCode in Hv as [c Hc]. congruence.
Qed.

(** C1. Submitting [s] through the access-code input at time [t] moves an
    unauthorized session to [user], and stores the marker "user", exactly
    when some access code of the collection equals [toUpperCase s], the upper
    case the engine gives [s], and has [t < expiry]; otherwise the session
    stays unauthorized, the marker is untouched and the error "Invalid or
    Expired Access Code" is shown.  This holds whatever function
    [toUpperCase] is. *)
Theorem handleUserLogin_iff (toUpperCase : string -> string) (env : Env) (w : World) (s : string) :
  authStatus w = unauthorized ->
  let t := env Date_now 0 in
  let w' := exec env (handleUserLogin (onLoginCodeChange toUpperCase s w)) in
  let valid := validCodeExists (accessCodes w) (toUpperCase s) t in
  (authStatus w' = user <-> valid) /\
  (valid ->
   authStatus w' = user /\ vertex_session w' = Some "user" /\ error w' = None) /\
  (~ valid ->
   authStatus w' = unauthorized /\ vertex_session w' = vertex_session w /\
   error w' = Some "Invalid or Expired Access Code").
Proof.
  intros Hun t w' valid.
  assert (Hok : valid ->
    authStatus w' = user /\ vertex_session w' = Some "user" /\ error w' = None).
  { intros Hv. subst w'. rewrite handleUserLogin_success by exact Hv. cbn. auto. }
  assert (Hko : ~ valid ->
    authStatus w' = unauthorized /\ vertex_session w' = vertex_session w /\
    error w' = Some "Invalid or Expired Access Code").
  { intros Hv. subst w'. rewrite handleUserLogin_failure by exact Hv. cbn. auto. }
  split; [|split]; trivial.
  split.
  - intros Hu. destruct (validCodeExists_dec (accessCodes w) (toUpperCase s) t) as [Hv|Hv].
    + exact Hv.
    + apply Hko in Hv as (Hs & _). congruence.
  - intros Hv. now apply Hok.
Qed.

Lemma handleUserLogin_iff_witness :
  authStatus (loginScreen "") = unauthorized /\
  authStatus (exec (online 1000000%float 0%float (sampleResult "t"))
                (handleUserLogin (onLoginCodeChange JS.asciiUpperCase "ab12cd34" (loginScreen "")))) = user.
Proof.
  split; [reflexivity|].
  apply (proj2 (proj1 (handleUserLogin_iff JS.asciiUpperCase (online 1000000%float 0%float (sampleResult "t"))
                         (loginScreen "") "ab12cd34" eq_refl))).
  exists sampleCode. split; [left; reflexivity | split; reflexivity].
Defined.

(** C5. Submitting the master-key input makes the session [admin], and
    stores the marker "admin", exactly when the typed string is [MASTER_CODE];
    any other string leaves the session and the marker as they were and shows
    "Invalid Master Code". *)
Theorem handleAdminLogin_iff (w : World) (s : string) :
  authStatus w = unauthorized ->
  let w' := handleAdminLogin (onAdminCodeChange s w) in
  (authStatus w' = admin <-> s = MASTER_CODE) /\
  (s = MASTER_CODE ->
   authStatus w' = admin /\ vertex_session w' = Some "admin" /\ error w' = None) /\
  (s <> MASTER_CODE ->
   w' = setError (Some "Invalid Master Code") (onAdminCodeChange s w) /\
   authStatus w' = authStatus w /\ vertex_session w' = vertex_session w /\
   error w' = Some "Invalid Master Code").
Proof.
  intros Hun w'. subst w'. unfold handleAdminLogin. cbn [adminCode onAdminCodeChange setAdminCode].
  destruct (String.eqb_spec s MASTER_CODE) as [Heq|Hne].
  - split; [|split].
    + cbn. tauto.
    + intros _. cbn. auto.
    + intros Hn. contradiction.
  - split; [|split].
    + cbn. rewrite Hun. split; [discriminate | contradiction].
    + intros He. contradiction.
    + intros _. cbn. auto.
Qed.

Lemma handleAdminLogin_iff_witness :
  authStatus (loginScreen "") = unauthorized /\
  authStatus (handleAdminLogin (onAdminCodeChange "rFOt4cPdfyeFCNrB" (loginScreen ""))) = admin.
Proof.
  split; [reflexivity|].
  apply (proj2 (proj1 (handleAdminLogin_iff (loginScreen "") "rFOt4cPdfyeFCNrB" eq_refl))).
  reflexivity.
Defined.

(** *** What a login leaves alone *)

Lemma handleUserLogin_frame (env : Env) (w : World) :
  accessCodes (exec env (handleUserLogin w)) = accessCodes w /\
  history (exec env (handleUserLogin w)) = history w.
Proof.
  rewrite handleUserLogin_eq.
  destruct (find _ (accessCodes w)); split; reflexivity.
Qed.

Lemma handleAdminLogin_frame (w : World) :
  accessCodes (handleAdminLogin w) = accessCodes w /\
  history (handleAdminLogin w) = history w.
Proof.
  unfold handleAdminLogin. destruct (adminCode w =? MASTER_CODE); split; reflexivity.
Qed.

Lemma visit_accessCodes (toUpperCase : string -> string) s w env : accessCodes (visit toUpperCase s w env) = accessCodes w.
Proof.
  unfold visit. now rewrite (proj1 (handleUserLogin_frame env _)).
Qed.

Lemma visits_succeed (toUpperCase : string -> string) (s : string) (c : AccessCode) (envs : list Env) :
  code c = toUpperCase s ->
  Forall (fun env : Env => PrimFloat.ltb (env Date_now 0) (expiry c) = true) envs ->
  forall w, In c (accessCodes w) ->
  Forall (fun w' => authStatus w' = user /\ accessCodes w' = accessCodes w)
         (visits toUpperCase s envs w).
Proof.
  intros Hc Hall. induction Hall as [|env rest Hlt _ IH]; intros w Hin; cbn.
  - constructor.
  - assert (Hacc : accessCodes (visit toUpperCase s w env) = accessCodes w) by apply visit_accessCodes.
    constructor.
    + split; [|exact Hacc].
      unfold visit. rewrite handleUserLogin_success; [reflexivity|].
      exists c. cbn. auto.
    + specialize (IH (visit toUpperCase s w env)). rewrite Hacc in IH.
      apply IH. exact Hin.
Qed.

(** C10. Neither login handler changes the access-code collection or the
    history, whether it succeeds or not; the matched code stays in the
    collection, so every one of any number of logins before its expiry, with
    a text whose upper case ([toUpperCase], whatever function it is) is the
    code, succeeds. *)
Theorem login_frame (toUpperCase : string -> string) (env : Env) (w : World) :
  (accessCodes (exec env (handleUserLogin w)) = accessCodes w /\
   history (exec env (handleUserLogin w)) = history w) /\
  (accessCodes (handleAdminLogin w) = accessCodes w /\
   history (handleAdminLogin w) = history w) /\
  (forall (s : string) (c : AccessCode) (envs : list Env),
     In c (accessCodes w) ->
     code c = toUpperCase s ->
     Forall (fun e : Env => PrimFloat.ltb (e Date_now 0) (expiry c) = true) envs ->
     Forall (fun w' => authStatus w' = user /\ In c (accessCodes w'))
            (visits toUpperCase s envs w)).
Proof.
  split; [apply handleUserLogin_frame|].
  split; [apply handleAdminLogin_frame|].
  intros s c envs Hin Hc Hall.
  pose proof (visits_succeed toUpperCase s c envs Hc Hall w Hin) as H.
  eapply Forall_impl; [|exact H].
  cbn. intros w' [Hu ->]. auto.
Qed.

Lemma login_frame_witness :
  Forall (fun w' => authStatus w' = user /\ In sampleCode (accessCodes w'))
         (visits JS.asciiUpperCase "ab12cd34"
                 [online 1000%float 0%float (sampleResult "a");
                  online 2000%float 0%float (sampleResult "b");
                  online 3599999%float 0%float (sampleResult "c")]
                 (loginScreen "")).
Proof.
  apply (proj2 (proj2 (login_frame JS.asciiUpperCase (online 0%float 0%float (sampleResult "a"))
                                   (loginScreen ""))) "ab12cd34" sampleCode).
  - left; reflexivity.
  - reflexivity.
  - repeat constructor.
Defined.

(** ** Logout *)

Lemma logout_idempotent (w : World) : logout (logout w) = logout w.
Proof. reflexivity. Qed.

(** C8. [logout] applied twice is [logout] applied once: on the session
    marker, on [loginCode], on [adminCode] and on everything else.  The
    handler is bound to the buttons of the admin and the user view alone, so
    the unauthorized session it can be called in again is the one a logout
    has left, and there it is a no-op.  After any logout the session is
    unauthorized, the marker is absent and both inputs are empty; and on a
    state that is so already [logout] changes nothing. *)
Theorem logout_twice (w : World) :
  (authStatus (logout w) = unauthorized /\
   vertex_session (logout (logout w)) = vertex_session (logout w) /\
   loginCode (logout (logout w)) = loginCode (logout w) /\
   adminCode (logout (logout w)) = adminCode (logout w) /\
   logout (logout w) = logout w) /\
  (vertex_session (logout w) = None /\ loginCode (logout w) = "" /\
   adminCode (logout w) = "") /\
  (authStatus w = unauthorized ->
   (logout w = w <->
    vertex_session w = None /\ loginCode w = "" /\ adminCode w = "")).
Proof.
  split; [repeat split|]. split; [repeat split|].
  intros Hun. split.
  - intros Heq. rewrite <- Heq. cbn. auto.
  - intros (Hs & Hl & Ha). destruct w. cbn in *. subst. reflexivity.
Qed.

Lemma logout_twice_witness :
  authStatus (initial None None None) = unauthorized /\
  logout (initial None None None) = initial None None None.
Proof.
  split; [reflexivity|].
  apply (proj2 (proj2 (logout_twice (initial None None None))) eq_refl).
  repeat split.
Defined.

(** ** Analysis *)

Lemma runAnalysis_unstaged (cfg : bool) (w : World) :
  JS.truthy (image w) = false ->
  runAnalysis cfg w = Ret (setError (Some noImageMessage) w).
Proof.
  unfold runAnalysis. destruct (image w) as [img|]; [|reflexivity].
  intros ->. reflexivity.
Qed.

(** What a run with a staged image and a successful [analyzeChart] leaves. *)
Lemma runAnalysis_resolved (cfg : bool) (env : Env) (w : World) img data :
  image w = Some img ->
  JS.truthy (Some img) = true ->
  env (analyzeChart img) 0 = inl data ->
  let w' := exec env (runAnalysis cfg w) in
  history w' = JS.slice0 20 (data :: history w) /\
  result w' = Some data /\
  image w' = image w /\
  isAnalyzing w' = false /\
  error w' = None.
Proof.
  intros Hi Ht He. unfold exec, runAnalysis. rewrite Hi, Ht. cbn.
  rewrite He. destruct cfg; cbn; rewrite Hi; auto.
Qed.

(** What a run with a staged image and a failing [analyzeChart] leaves. *)
Lemma runAnalysis_rejected (cfg : bool) (env : Env) (w : World) img err :
  image w = Some img ->
  JS.truthy (Some img) = true ->
  env (analyzeChart img) 0 = inr err ->
  let w' := exec env (runAnalysis cfg w) in
  history w' = history w /\ image w' = image w.
Proof.
  intros Hi Ht He. unfold exec, runAnalysis. rewrite Hi, Ht. cbn.
  rewrite He. cbn. auto.
Qed.

(** C6. With no image staged, [runAnalysis] is the single step that shows
    "Please upload a chart image first.": it calls neither [analyzeChart] nor
    the remote store, writes nothing to local storage, and leaves the
    history, the result and the analyzing flag as they were. *)
Theorem runAnalysis_no_image (cfg : bool) (env : Env) (w : World) :
  JS.truthy (image w) = false ->
  let w' := exec env (runAnalysis cfg w) in
  runAnalysis cfg w = Ret (setError (Some noImageMessage) w) /\
  calls env (runAnalysis cfg w) = [] /\
  error w' = Some "Please upload a chart image first." /\
  history w' = history w /\
  result w' = result w /\
  isAnalyzing w' = isAnalyzing w /\
  vertex_history w' = vertex_history w /\
  vertex_access_codes w' = vertex_access_codes w /\
  accessCodes w' = accessCodes w.
Proof.
  intros Hf w'. subst w'. unfold exec, calls.
  rewrite (runAnalysis_unstaged cfg w Hf). cbn. repeat split.
Qed.

Lemma runAnalysis_no_image_witness :
  JS.truthy (image (loginScreen "")) = false /\
  calls (online 0%float 0%float (sampleResult "t")) (runAnalysis true (loginScreen "")) = [].
Proof.
  split; [reflexivity|].
  apply (runAnalysis_no_image true (online 0%float 0%float (sampleResult "t"))
                              (loginScreen "") eq_refl).
Defined.

(** ** Code management *)

Lemma generateCode_remote (env : Env) (days : float) (w : World) :
  run env 0 (generateCode true days w) =
  (match supabase.error (env (insert_access_codes (newRow env days)) 9) with
   | Some _ => setError (Some "Failed to save code to database.") w
   | None => setAccessCodes (fun prev => newCode env days :: prev) w
   end,
   [Math_random; Math_random; Math_random; Math_random;
    Math_random; Math_random; Math_random; Math_random;
    Date_now; insert_access_codes (newRow env days)]).
Proof.
  unfold generateCode, newRow, newCode, drawnCode, exec. cbn.
  destruct (supabase.error _); reflexivity.
Qed.

Lemma generateCode_local (env : Env) (days : float) (w : World) :
  run env 0 (generateCode false days w) =
  (setAccessCodes (fun prev => newCode env days :: prev)
     (localStorage.setItem_access_codes (newCode env days :: accessCodes w) w),
   [Math_random; Math_random; Math_random; Math_random;
    Math_random; Math_random; Math_random; Math_random;
    Date_now]).
Proof. reflexivity. Qed.

Lemma deleteCode_remote (env : Env) (code0 : string) (w : World) :
  run env 0 (deleteCode true code0 w) =
  (match supabase.error (env (delete_access_codes code0) 0) with
   | Some _ => setError (Some "Failed to delete code from database.") w
   | None => setAccessCodes (filter (keepOthers code0)) w
   end,
   [delete_access_codes code0]).
Proof.
  unfold deleteCode. cbn. destruct (supabase.error _); reflexivity.
Qed.

Lemma deleteCode_local (env : Env) (code0 : string) (w : World) :
  run env 0 (deleteCode false code0 w) =
  (setAccessCodes (filter (keepOthers code0))
     (localStorage.setItem_access_codes (filter (keepOthers code0) (accessCodes w)) w),
   []).
Proof. reflexivity. Qed.

(** C3. With the remote store configured: when the insert of [generateCode]
    or the delete of [deleteCode] reports an error, the access-code
    collection is what it was and an error is shown; [runAnalysis], once
    [analyzeChart] has resolved, puts the result at the head of the history
    (cut to 20) whatever the insert into [history] reports. *)
Theorem remote_write_failure (env : Env) (w : World) :
  (forall days : float,
     supabase.error (env (insert_access_codes (newRow env days)) 9) <> None ->
     accessCodes (exec env (generateCode true days w)) = accessCodes w /\
     error (exec env (generateCode true days w)) = Some "Failed to save code to database.") /\
  (forall code0 : string,
     supabase.error (env (delete_access_codes code0) 0) <> None ->
     accessCodes (exec env (deleteCode true code0 w)) = accessCodes w /\
     error (exec env (deleteCode true code0 w)) = Some "Failed to delete code from database.") /\
  (forall (img : string) (data : AnalysisResult),
     image w = Some img ->
     JS.truthy (Some img) = true ->
     env (analyzeChart img) 0 = inl data ->
     history (exec env (runAnalysis true w)) = JS.slice0 20 (data :: history w) /\
     calls env (runAnalysis true w) =
       [analyzeChart img; insert_history (supabase.mkHistoryRow data (Types.timestamp data))]).
Proof.
  split; [|split].
  - intros days Hfail. unfold exec. rewrite generateCode_remote. cbn.
    destruct (supabase.error _); [split; reflexivity | contradiction].
  - intros code0 Hfail. unfold exec. rewrite deleteCode_remote. cbn.
    destruct (supabase.error _); [split; reflexivity | contradiction].
  - intros img data Hi Ht He. split.
    + apply (runAnalysis_resolved true env w img data Hi Ht He).
    + unfold calls, runAnalysis. rewrite Hi, Ht. cbn. rewrite He. reflexivity.
Qed.

Lemma remote_write_failure_witness :
  (accessCodes (exec (writesFail 5%float 0%float (sampleResult "t"))
                     (generateCode true 7%float staged)) = [sampleCode]) /\
  (accessCodes (exec (writesFail 5%float 0%float (sampleResult "t"))
                     (deleteCode true "AB12CD34" staged)) = [sampleCode]) /\
  (history (exec (writesFail 5%float 0%float (sampleResult "t"))
                 (runAnalysis true staged)) = [sampleResult "t"]).
Proof.
  pose proof (remote_write_failure (writesFail 5%float 0%float (sampleResult "t")) staged)
    as (Hgen & Hdel & Hrun).
  split; [|split].
  - apply (Hgen 7%float). discriminate.
  - apply (Hdel "AB12CD34"). discriminate.
  - apply (Hrun "data:image/jpeg;base64,AAAA" (sampleResult "t")); reflexivity.
Defined.

(** *** Deleting a code that is not there *)

Lemma filter_absent (code0 : string) (codes : list AccessCode) :
  absent code0 codes -> filter (keepOthers code0) codes = codes.
Proof.
  unfold absent. induction codes as [|c rest IH]; intros Habs; cbn; [reflexivity|].
  unfold keepOthers at 1.
  destruct (String.eqb_spec (code c) code0) as [Heq|Hne]; cbn.
  - exfalso. apply (Habs c); [left; reflexivity | exact Heq].
  - f_equal. apply IH. intros c' Hin. apply Habs. now right.
Qed.

Lemma setAccessCodes_same (w : World) (f : list AccessCode -> list AccessCode) :
  f (accessCodes w) = accessCodes w -> setAccessCodes f w = w.
Proof.
  intros Hf. destruct w. unfold setAccessCodes. cbn in *. now rewrite Hf.
Qed.

(** C7. Deleting a code value that no access code carries always returns
    and leaves the collection as it is.  With the remote store it makes the
    one delete query and, when that succeeds, changes nothing at all; with
    local storage it makes no call and stores the unchanged collection. *)
Theorem deleteCode_absent (cfg : bool) (env : Env) (w : World) (code0 : string) :
  absent code0 (accessCodes w) ->
  (exists w', run env 0 (deleteCode cfg code0 w) =
              (w', if cfg then [delete_access_codes code0] else []) /\
              accessCodes w' = accessCodes w) /\
  (cfg = true -> supabase.error (env (delete_access_codes code0) 0) = None ->
   exec env (deleteCode cfg code0 w) = w) /\
  (cfg = false ->
   exec env (deleteCode cfg code0 w) =
     localStorage.setItem_access_codes (accessCodes w) w /\
   error (exec env (deleteCode cfg code0 w)) = error w).
Proof.
  intros Habs. pose proof (filter_absent code0 (accessCodes w) Habs) as Hfil.
  split; [|split].
  - destruct cfg.
    + rewrite deleteCode_remote. eexists. split; [reflexivity|].
      destruct (supabase.error _); cbn; [reflexivity | exact Hfil].
    + rewrite deleteCode_local. eexists. split; [reflexivity|].
      cbn. exact Hfil.
  - intros -> Hok. unfold exec. rewrite deleteCode_remote, Hok. cbn.
    now apply setAccessCodes_same.
  - intros ->. unfold exec. rewrite deleteCode_local. cbn [fst].
    rewrite Hfil. split.
    + now apply setAccessCodes_same.
    + reflexivity.
Qed.

Lemma deleteCode_absent_witness :
  absent "ZZZZ9999" (accessCodes staged) /\
  exec (online 5%float 0%float (sampleResult "t")) (deleteCode true "ZZZZ9999" staged) = staged /\
  accessCodes (exec (online 5%float 0%float (sampleResult "t"))
                    (deleteCode false "ZZZZ9999" staged)) = [sampleCode].
Proof.
  assert (Habs : absent "ZZZZ9999" (accessCodes staged)).
  { intros c [<-|[]]. discriminate. }
  split; [exact Habs|]. split.
  - apply (proj1 (proj2 (deleteCode_absent true (online 5%float 0%float (sampleResult "t"))
                                           staged "ZZZZ9999" Habs)) eq_refl eq_refl).
  - reflexivity.
Defined.

(** ** Startup *)

Lemma fetchData_local (env : Env) (w : World) :
  run env 0 (fetchData false w) =
  (let w := setIsLoadingData true w in
   let w1 := match vertex_history w with
             | Some savedHistory =>
                 match JSON_parse savedHistory with
                 | Some h => setHistory (fun _ => h) w
                 | None => w
                 end
             | None => w
             end in
   let w2 := match vertex_access_codes w1 with
             | Some savedCodes =>
                 match JSON_parse savedCodes with
                 | Some c => setAccessCodes (fun _ => c) w1
                 | None => w1
                 end
             | None => w1
             end in
   setIsLoadingData false w2, []).
Proof. reflexivity. Qed.

Lemma fetchData_local_history (env : Env) (w : World) (stored : list AnalysisResult) :
  vertex_history w = Some (JSON_stringify stored) ->
  history (exec env (fetchData false w)) = stored.
Proof.
  intros Hs. unfold exec. rewrite fetchData_local. cbn. rewrite Hs. cbn.
  destruct (vertex_access_codes w) as [[c|]|]; reflexivity.
Qed.

Lemma checkSession_history (w : World) : history (checkSession w) = history w.
Proof.
  unfold checkSession, sessionStorage.getItem. destruct (vertex_session w) as [s|]; [|reflexivity].
  destruct (s =? "admin"); [reflexivity|]. destruct (s =? "user"); reflexivity.
Qed.

Lemma clearHistory_local (env : Env) (w : World) :
  run env 0 (clearHistory false w) =
  (localStorage.removeItem_history (setHistory (fun _ => []) w), []).
Proof. reflexivity. Qed.

Lemma slice0_length {A} (n : nat) (l : list A) : length (JS.slice0 n l) <= n.
Proof. unfold JS.slice0. apply firstn_le_length. Qed.

(** C9. With local storage as the store, startup puts the whole stored
    history array into the state, untrimmed: a stored array of more than 20
    entries leaves more than 20 entries in the history.  The next successful
    analysis cuts the list to 20 again and a clear empties it. *)
Theorem startup_local_history (env : Env) (w : World) (stored : list AnalysisResult) :
  vertex_history w = Some (JSON_stringify stored) ->
  let w' := exec env (startup false w) in
  history w' = stored /\
  history (exec env (fetchData false w)) = stored /\
  (20 < length stored -> 20 < length (history w')) /\
  (forall (env2 : Env) (img : string) (data : AnalysisResult),
     image w' = Some img -> JS.truthy (Some img) = true ->
     env2 (analyzeChart img) 0 = inl data ->
     length (history (exec env2 (runAnalysis false w'))) <= 20) /\
  (forall env2 : Env, history (exec env2 (clearHistory false w')) = []).
Proof.
  intros Hs w'.
  assert (Hh : history w' = stored).
  { subst w'. unfold startup, exec.
    change (fst (run env 0 (w1 <- fetchData false w ;; Ret (checkSession w1))))
      with (checkSession (exec env (fetchData false w))).
    rewrite checkSession_history. now apply fetchData_local_history. }
  split; [exact Hh|]. split; [now apply fetchData_local_history|].
  split; [now rewrite Hh|]. split.
  - intros env2 img data Hi Ht He.
    destruct (runAnalysis_resolved false env2 w' img data Hi Ht He) as (-> & _).
    apply slice0_length.
  - intros env2. unfold exec. rewrite clearHistory_local. reflexivity.
Qed.

Lemma startup_local_history_witness :
  vertex_history overfull = Some (JSON_stringify (repeat (sampleResult "t") 21)) /\
  20 < length (history (exec (online 0%float 0%float (sampleResult "t"))
                             (startup false overfull))).
Proof.
  split; [reflexivity|].
  apply (proj1 (proj2 (proj2 (startup_local_history
                                (online 0%float 0%float (sampleResult "t"))
                                overfull (repeat (sampleResult "t") 21) eq_refl)))).
  cbn. lia.
Defined.

(** ** The history list *)

Lemma clearHistory_history (cfg : bool) (env : Env) (w : World) :
  history (exec env (clearHistory cfg w)) = (if cleared cfg env then [] else history w) /\
  image (exec env (clearHistory cfg w)) = image w.
Proof.
  unfold exec, clearHistory, cleared. destruct cfg; cbn; [|auto].
  destruct (supabase.error _); cbn; auto.
Qed.

Lemma slice0_push {A} (d : A) (l : list A) :
  JS.slice0 20 (d :: JS.slice0 20 l) = JS.slice0 20 (d :: l).
Proof.
  unfold JS.slice0. change (firstn 20 (d :: ?x)) with (d :: firstn 19 x).
  f_equal. rewrite firstn_firstn. reflexivity.
Qed.

Lemma acts_history (cfg : bool) (img : string) (l : list (HistoryAction * Env)) :
  JS.truthy (Some img) = true ->
  forall (w : World) (log : list AnalysisResult),
    image w = Some img ->
    history w = JS.slice0 20 (rev log) ->
    history (acts cfg l w) = JS.slice0 20 (rev (arrivals cfg img l log)) /\
    image (acts cfg l w) = Some img.
Proof.
  intros Ht. induction l as [|[[|] env] rest IH]; intros w log Hi Hh; cbn.
  - auto.
  - unfold act at 2. cbn [fst snd].
    destruct (env (analyzeChart img) 0) as [data|err] eqn:He.
    + destruct (runAnalysis_resolved cfg env w img data Hi Ht He) as (Hh' & _ & Hi' & _).
      apply IH.
      * now rewrite Hi'.
      * rewrite Hh', Hh, rev_app_distr. cbn [rev app]. apply slice0_push.
    + destruct (runAnalysis_rejected cfg env w img err Hi Ht He) as (Hh' & Hi').
      apply IH; congruence.
  - unfold act at 2. cbn [fst snd].
    destruct (clearHistory_history cfg env w) as (Hh' & Hi').
    apply IH; [congruence|].
    rewrite Hh'. destruct (cleared cfg env); [reflexivity | exact Hh].
Qed.

Lemma slice0_full {A} (d : A) (l : list A) :
  length l = 20 -> JS.slice0 20 (d :: l) = d :: removelast l.
Proof.
  intros Hl. unfold JS.slice0. change (firstn 20 (d :: l)) with (d :: firstn 19 l).
  f_equal. rewrite removelast_firstn_len, Hl. reflexivity.
Qed.

(** C2. From an empty history, after any sequence of analyses and clears
    the history has at most 20 entries and lists the results that arrived
    since the last effective clear from the newest to the oldest, cut after
    the 20th.  An analysis that succeeds on a full list puts its result first
    and drops the last, the oldest, entry; so after 21 successes in a row
    the first result is gone and the 21st is at the head. *)
Theorem history_invariant (cfg : bool) (img : string) (w : World)
    (l : list (HistoryAction * Env)) :
  history w = [] ->
  image w = Some img ->
  JS.truthy (Some img) = true ->
  length (history (acts cfg l w)) <= 20 /\
  history (acts cfg l w) = JS.slice0 20 (rev (arrivals cfg img l [])) /\
  (forall (env : Env) (data : AnalysisResult),
     env (analyzeChart img) 0 = inl data ->
     length (history (acts cfg l w)) = 20 ->
     history (act cfg (acts cfg l w) (RunAnalysis, env)) =
       data :: removelast (history (acts cfg l w))) /\
  (forall (oldest : AnalysisResult) (later : list AnalysisResult)
          (ins : supabase.Response unit),
     length later = 20 ->
     l = map (fun d => (RunAnalysis, succeeds d ins)) (oldest :: later) ->
     history (acts cfg l w) = rev later).
Proof.
  intros Hh Hi Ht.
  destruct (acts_history cfg img l Ht w [] Hi Hh) as (Hl & Hi').
  split; [rewrite Hl; apply slice0_length|].
  split; [exact Hl|]. split.
  - intros env data He Hfull. unfold act. cbn [fst snd].
    destruct (runAnalysis_resolved cfg env _ img data Hi' Ht He) as (-> & _).
    now apply slice0_full.
  - intros oldest later ins Hlen ->. rewrite Hl.
    assert (Harr : forall ds log,
              arrivals cfg img (map (fun d => (RunAnalysis, succeeds d ins)) ds) log
              = log ++ ds).
    { induction ds as [|d ds IH]; intros log; cbn.
      - now rewrite app_nil_r.
      - rewrite IH, <- app_assoc. reflexivity. }
    rewrite Harr. cbn [app rev].
    unfold JS.slice0. rewrite firstn_app, firstn_all2 by (rewrite length_rev; lia).
    rewrite length_rev, Hlen. cbn. apply app_nil_r.
Qed.

Example twentyOne_timestamps :
  map Types.timestamp (history (acts true twentyOne staged)) =
  ["U"; "T"; "S"; "R"; "Q"; "P"; "O"; "N"; "M"; "L";
   "K"; "J"; "I"; "H"; "G"; "F"; "E"; "D"; "C"; "B"].
Proof. vm_compute. reflexivity. Qed.

Lemma history_invariant_witness :
  history staged = [] /\
  image staged = Some "data:image/jpeg;base64,AAAA" /\
  history (acts true twentyOne staged) = rev (map sampleResult (tl stamps)).
Proof.
  split; [reflexivity|]. split; [reflexivity|].
  apply (proj2 (proj2 (proj2 (history_invariant true "data:image/jpeg;base64,AAAA"
                                staged twentyOne eq_refl eq_refl eq_refl)))
           (sampleResult "A") (map sampleResult (tl stamps)) noResponse);
    reflexivity.
Defined.

(** ** Expiry of a generated code *)

Lemma offeredDays_exact : Forall (fun d => lifetime d = lifetime_spec d) offeredDays.
Proof. repeat constructor. Qed.

(** Up to ten years of whole days every product is exact. *)
Lemma wholeDays_exact (n : nat) :
  n <= 3650 -> lifetime (wholeDays n) = lifetime_spec (wholeDays n).
Proof.
  intros Hn.
  assert (Hall : forallb (fun k => PrimFloat.Leibniz.eqb (lifetime (wholeDays k))
                                                         (lifetime_spec (wholeDays k)))
                         (seq 0 3651) = true) by (vm_compute; reflexivity).
  rewrite forallb_forall in Hall.
  apply FloatAxioms.Leibniz.eqb_spec, Hall, in_seq. lia.
Qed.

(** The two products need not be the same double for a duration the panel
    does not offer: for [oddDays] at [nov2025] the sum with the left-to-right
    product is one unit in the last place below the sum with the single
    product. *)
Example lifetime_rounding :
  lifetime oddDays <> lifetime_spec oddDays /\
  PrimFloat.ltb (nov2025 + lifetime oddDays) (nov2025 + lifetime_spec oddDays) = true.
Proof.
  split; [|vm_compute; reflexivity].
  intros H. apply (f_equal (fun x => PrimFloat.eqb x (lifetime_spec oddDays))) in H.
  vm_compute in H. discriminate H.
Qed.

(** C4. [generateCode] reads the clock once, after the eight random draws,
    and the code it creates has [createdAt] equal to that reading and
    [expiry] equal to that reading plus [days * 24 * 60 * 60 * 1000].  For
    every duration passed to it, the five of the admin panel (1/24, 5/24, 3,
    7 and 30 days), this is [createdAt + days * 86_400_000]; in general it is
    so whenever the two products are the same double, as they also are for
    every whole number of days up to 3650. *)
Theorem generateCode_expiry (cfg : bool) (env : Env) (days : float) (w : World) :
  let now := env Date_now 8 in
  let c := newCode env days in
  calls env (generateCode cfg days w) =
    repeat Math_random 8 ++ [Date_now] ++
    (if cfg then [insert_access_codes (newRow env days)] else []) /\
  (cfg = false \/ supabase.error (env (insert_access_codes (newRow env days)) 9) = None ->
   accessCodes (exec env (generateCode cfg days w)) = c :: accessCodes w) /\
  (supabase.row_created_at (newRow env days) = createdAt c /\
   supabase.row_expiry (newRow env days) = expiry c /\
   supabase.row_duration (newRow env days) = duration c) /\
  duration c = days /\
  createdAt c = now /\
  expiry c = (now + days * 24 * 60 * 60 * 1000)%float /\
  (lifetime days = lifetime_spec days ->
   expiry c = (createdAt c + days * 86400000)%float) /\
  (In days offeredDays -> expiry c = (createdAt c + days * 86400000)%float) /\
  (forall n : nat, n <= 3650 -> days = wholeDays n ->
   expiry c = (createdAt c + days * 86400000)%float).
Proof.
  intros now c.
  assert (Hexact : lifetime days = lifetime_spec days ->
                   expiry c = (createdAt c + days * 86400000)%float).
  { intros He. unfold lifetime, lifetime_spec in He. cbn. now rewrite He. }
  split; [|split].
  - unfold calls. destruct cfg;
      [rewrite generateCode_remote | rewrite generateCode_local]; reflexivity.
  - unfold exec. intros [-> | Hok].
    + rewrite generateCode_local. reflexivity.
    + destruct cfg.
      * rewrite generateCode_remote, Hok. reflexivity.
      * rewrite generateCode_local. reflexivity.
  - repeat split; trivial.
    + intros Hin. apply Hexact.
      pose proof offeredDays_exact as Hall. rewrite Forall_forall in Hall.
      now apply Hall.
    + intros n Hn ->. apply Hexact. now apply wholeDays_exact.
Qed.

Lemma generateCode_expiry_witness :
  In (1 / 24)%float offeredDays /\
  expiry (newCode (online nov2025 0%float (sampleResult "t")) (1 / 24)%float) =
  (createdAt (newCode (online nov2025 0%float (sampleResult "t")) (1 / 24)%float)
   + (1 / 24) * 86400000)%float.
Proof.
  split; [left; reflexivity|].
  destruct (generateCode_expiry true (online nov2025 0%float (sampleResult "t"))
              (1 / 24)%float staged)
    as (_ & _ & _ & _ & _ & _ & _ & Hoffered & _).
  apply Hoffered. left; reflexivity.
Defined.

(** ** A scenario across the handlers *)

(** An admin issues a one-hour code at [nov2025]; the code is the eight
    letters drawn, it expires 3 600 000 ms later, a login with it 1 000 000
    ms after issue succeeds and one 3 700 000 ms after issue is refused. *)
Example one_hour_code :
  let issued := exec (online nov2025 0%float (sampleResult "t"))
                     (generateCode true (1 / 24)%float (initial None None None)) in
  let early := online (nov2025 + 1000000)%float 0%float (sampleResult "t") in
  let late := online (nov2025 + 3700000)%float 0%float (sampleResult "t") in
  map code (accessCodes issued) = ["AAAAAAAA"] /\
  map expiry (accessCodes issued) = [(nov2025 + 3600000)%float] /\
  authStatus (exec early (handleUserLogin (onLoginCodeChange JS.asciiUpperCase "aaaaaaaa" issued))) = user /\
  authStatus (exec late (handleUserLogin (onLoginCodeChange JS.asciiUpperCase "aaaaaaaa" issued))) = unauthorized /\
  error (exec late (handleUserLogin (onLoginCodeChange JS.asciiUpperCase "aaaaaaaa" issued)))
    = Some "Invalid or Expired Access Code".
Proof. vm_compute. repeat split. Qed.

Example draw_half : JS.charAt chars (JS.floor_index (0.5 * length_number chars)%float) = "S".
Proof. reflexivity. Qed.

Example draw_last :
  JS.charAt chars (JS.floor_index (0x1.fffffffffffffp-1 * length_number chars)%float) = "9".
Proof. reflexivity. Qed.

(** * Further properties of the handlers *)

(** ** Clearing and analysing *)

(** X1. [clearHistory] empties the history exactly when the clear takes
    effect.  With the remote store it sends the one delete and, when that
    reports an error, changes nothing but the error shown; with local storage
    it sends nothing and removes the stored array. *)
Theorem clearHistory_outcome (cfg : bool) (env : Env) (w : World) :
  (cleared cfg env = true ->
   history (exec env (clearHistory cfg w)) = [] /\
   error (exec env (clearHistory cfg w)) = error w) /\
  (cleared cfg env = false ->
   exec env (clearHistory cfg w) =
     setError (Some "Failed to clear history from database.") w) /\
  calls env (clearHistory cfg w) = (if cfg then [delete_history] else []) /\
  vertex_history (exec env (clearHistory cfg w)) =
    (if cfg then vertex_history w else None) /\
  accessCodes (exec env (clearHistory cfg w)) = accessCodes w /\
  result (exec env (clearHistory cfg w)) = result w.
Proof.
  unfold exec, calls, clearHistory, cleared. destruct cfg; cbn.
  - destruct (supabase.error (env delete_history 0)); cbn;
      repeat split; auto; discriminate.
  - repeat split; auto; discriminate.
Qed.

Lemma clearHistory_outcome_witness :
  cleared true (writesFail 0%float 0%float (sampleResult "t")) = false /\
  exec (writesFail 0%float 0%float (sampleResult "t")) (clearHistory true overfull) =
    setError (Some "Failed to clear history from database.") overfull.
Proof.
  split; [reflexivity|].
  apply (proj1 (proj2 (clearHistory_outcome true (writesFail 0%float 0%float (sampleResult "t"))
                                            overfull))).
  reflexivity.
Defined.

Lemma runAnalysis_failed (cfg : bool) (env : Env) (w : World) (img : string)
    (err : JS.Error) :
  image w = Some img ->
  JS.truthy (Some img) = true ->
  env (analyzeChart img) 0 = inr err ->
  exec env (runAnalysis cfg w) =
    setIsAnalyzing false
      (setError (Some (JS.or_else (JS.message err) "Analysis failed. Please try again."))
                (setIsAnalyzing true w)) /\
  calls env (runAnalysis cfg w) = [analyzeChart img].
Proof.
  intros Hi Ht He. unfold exec, calls, runAnalysis. rewrite Hi, Ht. cbn. rewrite He. cbn.
  split; reflexivity.
Qed.

(** X2. When [analyzeChart] rejects, [runAnalysis] has made that one call
    and no write: it shows the error's message, or "Analysis failed. Please
    try again." when the message is missing or empty, ends with
    [isAnalyzing] false, and leaves the history, the result, the staged image
    and both stored arrays as they were. *)
Theorem runAnalysis_rejected_outcome (cfg : bool) (env : Env) (w : World)
    (img : string) (err : JS.Error) :
  image w = Some img ->
  JS.truthy (Some img) = true ->
  env (analyzeChart img) 0 = inr err ->
  exec env (runAnalysis cfg w) =
    setIsAnalyzing false
      (setError (Some (JS.or_else (JS.message err) "Analysis failed. Please try again."))
                (setIsAnalyzing true w)) /\
  calls env (runAnalysis cfg w) = [analyzeChart img] /\
  (JS.truthy (JS.message err) = false ->
   error (exec env (runAnalysis cfg w)) = Some "Analysis failed. Please try again.") /\
  (forall m, JS.message err = Some m -> m <> "" ->
   error (exec env (runAnalysis cfg w)) = Some m).
Proof.
  intros Hi Ht He. unfold exec, calls, runAnalysis. rewrite Hi, Ht. cbn. rewrite He. cbn.
  repeat split.
  - destruct err as [[m|]]; cbn; [|reflexivity].
    destruct (m =? ""); [reflexivity | discriminate].
  - intros m Hm Hne. rewrite Hm. cbn.
    destruct (String.eqb_spec m ""); [contradiction | reflexivity].
Qed.

Lemma runAnalysis_rejected_outcome_witness :
  error (exec (withService "p" None (answers "{}") parsesAll "now"
                 (online 0%float 0%float (sampleResult "t")))
              (runAnalysis true staged)) = Some geminiService.notConfigured.
Proof.
  apply (proj2 (proj2 (proj2 (runAnalysis_rejected_outcome true
           (withService "p" None (answers "{}") parsesAll "now"
              (online 0%float 0%float (sampleResult "t")))
           staged "data:image/jpeg;base64,AAAA"
           (JS.mkError (Some geminiService.notConfigured))
           eq_refl eq_refl eq_refl))) geminiService.notConfigured eq_refl).
  discriminate.
Defined.



(** A clear during the await: the handler was created over [oneEntry], the
    history is empty when the call resolves.  The stored array then has the
    old entry behind the new one, the list in memory has the new one alone. *)
Example analysis_overtaken_by_clear :
  vertex_history
    (runAnalysis_resumed oneEntry
       (exec (online 0%float 0%float (sampleResult "t"))
             (clearHistory false (setError None (setIsAnalyzing true oneEntry))))
       (sampleResult "new"))
  = Some (JSON_stringify [sampleResult "new"; sampleResult "old"]) /\
  history
    (runAnalysis_resumed oneEntry
       (exec (online 0%float 0%float (sampleResult "t"))
             (clearHistory false (setError None (setIsAnalyzing true oneEntry))))
       (sampleResult "new"))
  = [sampleResult "new"].
Proof. split; reflexivity. Qed.

(** ** What each handler can change *)

Lemma runAnalysis_cases (cfg : bool) (env : Env) (w : World) :
  (history (exec env (runAnalysis cfg w)) = history w \/
   exists img data,
     image w = Some img /\ env (analyzeChart img) 0 = inl data /\
     history (exec env (runAnalysis cfg w)) = JS.slice0 20 (data :: history w)) /\
  authStatus (exec env (runAnalysis cfg w)) = authStatus w /\
  vertex_session (exec env (runAnalysis cfg w)) = vertex_session w /\
  accessCodes (exec env (runAnalysis cfg w)) = accessCodes w /\
  vertex_access_codes (exec env (runAnalysis cfg w)) = vertex_access_codes w.
Proof.
  unfold exec, runAnalysis. destruct (image w) as [img|] eqn:Hi; [|cbn; auto].
  destruct (JS.truthy (Some img)); [|cbn; auto]. cbn.
  destruct (env (analyzeChart img) 0) as [data|err] eqn:He; [|cbn; auto].
  destruct cfg; cbn; (split; [right; exists img, data; auto | auto]).
Qed.

Lemma generateCode_cases (cfg : bool) (env : Env) (days : float) (w : World) :
  (accessCodes (exec env (generateCode cfg days w)) = accessCodes w \/
   accessCodes (exec env (generateCode cfg days w)) = newCode env days :: accessCodes w) /\
  authStatus (exec env (generateCode cfg days w)) = authStatus w /\
  vertex_session (exec env (generateCode cfg days w)) = vertex_session w /\
  history (exec env (generateCode cfg days w)) = history w /\
  vertex_history (exec env (generateCode cfg days w)) = vertex_history w.
Proof.
  unfold exec. destruct cfg.
  - rewrite generateCode_remote. cbn. destruct (supabase.error _); cbn; auto.
  - rewrite generateCode_local. cbn. auto.
Qed.

Lemma deleteCode_cases (cfg : bool) (env : Env) (code0 : string) (w : World) :
  (accessCodes (exec env (deleteCode cfg code0 w)) = accessCodes w \/
   accessCodes (exec env (deleteCode cfg code0 w)) = filter (keepOthers code0) (accessCodes w)) /\
  authStatus (exec env (deleteCode cfg code0 w)) = authStatus w /\
  vertex_session (exec env (deleteCode cfg code0 w)) = vertex_session w /\
  history (exec env (deleteCode cfg code0 w)) = history w /\
  vertex_history (exec env (deleteCode cfg code0 w)) = vertex_history w.
Proof.
  unfold exec. destruct cfg.
  - rewrite deleteCode_remote. cbn. destruct (supabase.error _); cbn; auto.
  - rewrite deleteCode_local. cbn. auto.
Qed.

Lemma clearHistory_cases (cfg : bool) (env : Env) (w : World) :
  (history (exec env (clearHistory cfg w)) = history w \/
   history (exec env (clearHistory cfg w)) = []) /\
  authStatus (exec env (clearHistory cfg w)) = authStatus w /\
  vertex_session (exec env (clearHistory cfg w)) = vertex_session w /\
  accessCodes (exec env (clearHistory cfg w)) = accessCodes w /\
  vertex_access_codes (exec env (clearHistory cfg w)) = vertex_access_codes w.
Proof.
  unfold exec, clearHistory. destruct cfg; cbn; [|auto].
  destruct (supabase.error _); cbn; auto.
Qed.

Lemma openHistoryItem_frame (idx : nat) (w : World) :
  history (openHistoryItem idx w) = history w /\
  accessCodes (openHistoryItem idx w) = accessCodes w /\
  authStatus (openHistoryItem idx w) = authStatus w /\
  vertex_session (openHistoryItem idx w) = vertex_session w.
Proof.
  unfold openHistoryItem. destruct (nth_error (history w) idx); cbn; auto.
Qed.

Lemma handle_session (toUpperCase : string -> string) (cfg : bool) (env : Env) (w : World) (e : Event) :
  (authStatus (handle toUpperCase cfg w (e, env)) = authStatus w /\
   vertex_session (handle toUpperCase cfg w (e, env)) = vertex_session w) \/
  (e = Ev_handleUserLogin /\
   validCodeExists (accessCodes w) (loginCode w) (env Date_now 0) /\
   authStatus (handle toUpperCase cfg w (e, env)) = user /\
   vertex_session (handle toUpperCase cfg w (e, env)) = Some "user") \/
  (e = Ev_handleAdminLogin /\ adminCode w = MASTER_CODE /\
   authStatus (handle toUpperCase cfg w (e, env)) = admin /\
   vertex_session (handle toUpperCase cfg w (e, env)) = Some "admin") \/
  (e = Ev_logout /\ authStatus (handle toUpperCase cfg w (e, env)) = unauthorized /\
   vertex_session (handle toUpperCase cfg w (e, env)) = None).
Proof.
  destruct e; cbn [handle fst snd].
  - left; auto.
  - left; auto.
  - left; auto.
  - destruct (validCodeExists_dec (accessCodes w) (loginCode w) (env Date_now 0)) as [Hv|Hv].
    + right; left. rewrite handleUserLogin_success by exact Hv. cbn. auto.
    + left. rewrite handleUserLogin_failure by exact Hv. cbn. auto.
  - unfold handleAdminLogin. destruct (String.eqb_spec (adminCode w) MASTER_CODE).
    + right; right; left. cbn. auto.
    + left. cbn. auto.
  - right; right; right. auto.
  - left. destruct (generateCode_cases cfg env days w) as (_ & ? & ? & _). auto.
  - left. destruct (deleteCode_cases cfg env code0 w) as (_ & ? & ? & _). auto.
  - left; auto.
  - left; auto.
  - left. destruct (runAnalysis_cases cfg env w) as (_ & ? & ? & _). auto.
  - left; auto.
  - left. destruct (clearHistory_cases cfg env w) as (_ & ? & ? & _). auto.
  - left. destruct (openHistoryItem_frame idx w) as (_ & _ & ? & ?). auto.
Qed.

(** X4. The session changes only through the three session handlers.  An
    event leaves the status and the stored marker as they are, unless it is a
    user login with a valid code (status [user], marker "user"), an admin
    login with the master code typed ([admin], "admin"), or a logout
    ([unauthorized], no marker); no other handler grants or revokes access. *)
Theorem access_transitions (toUpperCase : string -> string) (cfg : bool) (env : Env) (w : World) (e : Event) :
  (authStatus (handle toUpperCase cfg w (e, env)) = authStatus w /\
   vertex_session (handle toUpperCase cfg w (e, env)) = vertex_session w) \/
  (e = Ev_handleUserLogin /\
   validCodeExists (accessCodes w) (loginCode w) (env Date_now 0) /\
   authStatus (handle toUpperCase cfg w (e, env)) = user /\
   vertex_session (handle toUpperCase cfg w (e, env)) = Some "user") \/
  (e = Ev_handleAdminLogin /\ adminCode w = MASTER_CODE /\
   authStatus (handle toUpperCase cfg w (e, env)) = admin /\
   vertex_session (handle toUpperCase cfg w (e, env)) = Some "admin") \/
  (e = Ev_logout /\ authStatus (handle toUpperCase cfg w (e, env)) = unauthorized /\
   vertex_session (handle toUpperCase cfg w (e, env)) = None).
Proof. apply handle_session. Qed.

Lemma handle_history (toUpperCase : string -> string) (cfg : bool) (env : Env) (w : World) (e : Event) :
  history (handle toUpperCase cfg w (e, env)) = history w \/
  (e = Ev_runAnalysis /\
   exists img data,
     image w = Some img /\ env (analyzeChart img) 0 = inl data /\
     history (handle toUpperCase cfg w (e, env)) = JS.slice0 20 (data :: history w)) \/
  (e = Ev_clearHistory /\ history (handle toUpperCase cfg w (e, env)) = []).
Proof.
  destruct e; cbn [handle fst snd]; auto.
  - left. apply handleUserLogin_frame.
  - left. apply handleAdminLogin_frame.
  - left. apply generateCode_cases.
  - left. apply deleteCode_cases.
  - destruct (runAnalysis_cases cfg env w) as ([H|H] & _); auto.
  - destruct (clearHistory_cases cfg env w) as ([H|H] & _); auto.
  - left. apply openHistoryItem_frame.
Qed.

Lemma handle_accessCodes (toUpperCase : string -> string) (cfg : bool) (env : Env) (w : World) (e : Event) :
  accessCodes (handle toUpperCase cfg w (e, env)) = accessCodes w \/
  (exists days, e = Ev_generateCode days /\
     accessCodes (handle toUpperCase cfg w (e, env)) = newCode env days :: accessCodes w) \/
  (exists code0, e = Ev_deleteCode code0 /\
     accessCodes (handle toUpperCase cfg w (e, env)) = filter (keepOthers code0) (accessCodes w)).
Proof.
  destruct e; cbn [handle fst snd]; auto.
  - left. apply handleUserLogin_frame.
  - left. apply handleAdminLogin_frame.
  - destruct (generateCode_cases cfg env days w) as ([H|H] & _); [auto|].
    right; left. exists days. auto.
  - destruct (deleteCode_cases cfg env code0 w) as ([H|H] & _); [auto|].
    right; right. exists code0. auto.
  - left. apply runAnalysis_cases.
  - left. apply clearHistory_cases.
  - left. apply openHistoryItem_frame.
Qed.

(** X5. The two collections change only through their own handlers.  An
    event leaves the history as it is unless it is an analysis that resolved
    (the result is put first, the list cut to 20) or a clear (empty list); it
    leaves the access codes as they are unless it generates a code (put
    first) or deletes one (all codes of that value filtered out).  So over
    any sequence of events a history of at most 20 entries stays so. *)
Theorem collections_transitions (toUpperCase : string -> string) (cfg : bool) (w : World) :
  (forall (env : Env) (e : Event),
     history (handle toUpperCase cfg w (e, env)) = history w \/
     (e = Ev_runAnalysis /\
      exists img data,
        image w = Some img /\ env (analyzeChart img) 0 = inl data /\
        history (handle toUpperCase cfg w (e, env)) = JS.slice0 20 (data :: history w)) \/
     (e = Ev_clearHistory /\ history (handle toUpperCase cfg w (e, env)) = [])) /\
  (forall (env : Env) (e : Event),
     accessCodes (handle toUpperCase cfg w (e, env)) = accessCodes w \/
     (exists days, e = Ev_generateCode days /\
        accessCodes (handle toUpperCase cfg w (e, env)) = newCode env days :: accessCodes w) \/
     (exists code0, e = Ev_deleteCode code0 /\
        accessCodes (handle toUpperCase cfg w (e, env)) = filter (keepOthers code0) (accessCodes w))) /\
  (forall l : list (Event * Env),
     length (history w) <= 20 -> length (history (handleAll toUpperCase cfg l w)) <= 20).
Proof.
  split; [intros; apply handle_history|].
  split; [intros; apply handle_accessCodes|].
  intros l. revert w. induction l as [|[e env] rest IH]; intros w Hw; cbn; [exact Hw|].
  apply IH.
  destruct (handle_history toUpperCase cfg env w e) as [H|[(_ & img & data & _ & _ & H)|(_ & H)]];
    rewrite H; [exact Hw | apply slice0_length | cbn; lia].
Qed.

Lemma collections_transitions_witness :
  length (history staged) <= 20 /\
  length (history (handleAll JS.asciiUpperCase true
                     [(Ev_runAnalysis, online 0%float 0%float (sampleResult "a"));
                      (Ev_logout, online 0%float 0%float (sampleResult "a"));
                      (Ev_runAnalysis, online 0%float 0%float (sampleResult "b"))]
                     staged)) <= 20.
Proof.
  split; [cbn; lia|].
  apply (proj2 (proj2 (collections_transitions JS.asciiUpperCase true staged))). cbn. lia.
Defined.

(** ** Reloading the tab *)

Lemma restored_checkSession (w : World) :
  authStatus w = unauthorized ->
  authStatus (checkSession w) = restored (vertex_session w).
Proof.
  intros Hu. unfold restored, checkSession, sessionStorage.getItem. cbn.
  destruct (vertex_session w) as [s|]; [|exact Hu].
  destruct (s =? "admin"); [reflexivity|].
  destruct (s =? "user"); [reflexivity | exact Hu].
Qed.

Lemma fetchData_remote (env : Env) (w : World) :
  run env 0 (fetchData true w) =
  (setIsLoadingData false
     (historyLoaded (env select_history 1)
        (codesLoaded (env select_access_codes 0) (setIsLoadingData true w))),
   [select_access_codes; select_history]).
Proof. reflexivity. Qed.

Lemma codesLoaded_frame r (w : World) :
  authStatus (codesLoaded r w) = authStatus w /\
  vertex_session (codesLoaded r w) = vertex_session w /\
  history (codesLoaded r w) = history w.
Proof.
  unfold codesLoaded. destruct (supabase.error r), (supabase.data r); cbn; auto.
Qed.

Lemma historyLoaded_frame r (w : World) :
  authStatus (historyLoaded r w) = authStatus w /\
  vertex_session (historyLoaded r w) = vertex_session w /\
  accessCodes (historyLoaded r w) = accessCodes w.
Proof.
  unfold historyLoaded. destruct (supabase.error r), (supabase.data r); cbn; auto.
Qed.

Lemma fetchData_session (cfg : bool) (env : Env) (w : World) :
  authStatus (exec env (fetchData cfg w)) = authStatus w /\
  vertex_session (exec env (fetchData cfg w)) = vertex_session w.
Proof.
  unfold exec. destruct cfg.
  - rewrite fetchData_remote. cbn [fst].
    destruct (historyLoaded_frame (env select_history 1)
                (codesLoaded (env select_access_codes 0) (setIsLoadingData true w)))
      as (Ha & Hm & _).
    destruct (codesLoaded_frame (env select_access_codes 0) (setIsLoadingData true w))
      as (Ha' & Hm' & _).
    cbn in *. split; congruence.
  - rewrite fetchData_local. cbn.
    destruct (vertex_history w) as [[h|]|]; cbn;
      destruct (vertex_access_codes w) as [[c|]|]; cbn; auto.
Qed.

Lemma startup_session (cfg : bool) (env : Env) (w : World) :
  authStatus w = unauthorized ->
  authStatus (exec env (startup cfg w)) = restored (vertex_session w) /\
  vertex_session (exec env (startup cfg w)) = vertex_session w.
Proof.
  intros Hu.
  assert (Hs : exec env (startup cfg w) = checkSession (exec env (fetchData cfg w))).
  { unfold exec, startup. destruct cfg; reflexivity. }
  destruct (fetchData_session cfg env w) as (Ha & Hm).
  rewrite Hs. split.
  - rewrite restored_checkSession by congruence. now rewrite Hm.
  - unfold checkSession, sessionStorage.getItem.
    destruct (vertex_session (exec env (fetchData cfg w))) as [s|] eqn:E; [|congruence].
    destruct (s =? "admin"); [cbn; congruence|].
    destruct (s =? "user"); cbn; congruence.
Qed.

Lemma handleAll_mirrors (toUpperCase : string -> string) (cfg : bool) (l : list (Event * Env)) (w : World) :
  authStatus w = restored (vertex_session w) ->
  authStatus (handleAll toUpperCase cfg l w) = restored (vertex_session (handleAll toUpperCase cfg l w)).
Proof.
  revert w. induction l as [|[e env] rest IH]; intros w Hw; cbn; [exact Hw|].
  apply IH.
  destruct (handle_session toUpperCase cfg env w e)
    as [(Ha & Hm)|[(_ & _ & Ha & Hm)|[(_ & _ & Ha & Hm)|(_ & Ha & Hm)]]];
    rewrite Ha, Hm; [exact Hw | reflexivity..].
Qed.

(** X6. Reloading the tab keeps the session.  After the startup effect and
    any sequence of events, a component mounted afresh over the same storages
    comes up with the status the running one has: the stored marker always
    mirrors the status. *)
Theorem session_reload (toUpperCase : string -> string) (cfg : bool) (env0 env1 : Env) (marker : option string)
    (lsHistory : option (StoredText (list AnalysisResult)))
    (lsCodes : option (StoredText (list AccessCode))) (l : list (Event * Env)) :
  authStatus (reload cfg env1
                (handleAll toUpperCase cfg l (exec env0 (startup cfg (initial marker lsHistory lsCodes)))))
  = authStatus (handleAll toUpperCase cfg l (exec env0 (startup cfg (initial marker lsHistory lsCodes)))).
Proof.
  set (w0 := exec env0 (startup cfg (initial marker lsHistory lsCodes))).
  assert (H0 : authStatus w0 = restored (vertex_session w0)).
  { destruct (startup_session cfg env0 (initial marker lsHistory lsCodes) eq_refl)
      as (Ha & Hm). fold w0 in Ha, Hm. rewrite Ha, Hm. reflexivity. }
  pose proof (handleAll_mirrors toUpperCase cfg l w0 H0) as Hl.
  unfold reload.
  destruct (startup_session cfg env1
              (initial (vertex_session (handleAll toUpperCase cfg l w0))
                       (vertex_history (handleAll toUpperCase cfg l w0))
                       (vertex_access_codes (handleAll toUpperCase cfg l w0))) eq_refl) as (Ha & _).
  rewrite Ha. cbn [vertex_session initial]. symmetry. exact Hl.
Qed.

Lemma checkSession_frame (w : World) :
  history (checkSession w) = history w /\
  accessCodes (checkSession w) = accessCodes w /\
  vertex_history (checkSession w) = vertex_history w /\
  vertex_access_codes (checkSession w) = vertex_access_codes w /\
  isLoadingData (checkSession w) = isLoadingData w.
Proof.
  unfold checkSession, sessionStorage.getItem. destruct (vertex_session w) as [s|]; [|auto 6].
  destruct (s =? "admin"); [cbn; auto 6|]. destruct (s =? "user"); cbn; auto 6.
Qed.

Lemma startup_eq (cfg : bool) (env : Env) (w : World) :
  exec env (startup cfg w) = checkSession (exec env (fetchData cfg w)) /\
  calls env (startup cfg w) = calls env (fetchData cfg w).
Proof. destruct cfg; split; reflexivity. Qed.

Lemma fetchData_local_read (env : Env) (w : World) :
  history (exec env (fetchData false w))
    = match vertex_history w with
      | Some t => match JSON_parse t with Some h => h | None => history w end
      | None => history w
      end /\
  accessCodes (exec env (fetchData false w))
    = match vertex_access_codes w with
      | Some t => match JSON_parse t with Some c => c | None => accessCodes w end
      | None => accessCodes w
      end /\
  vertex_history (exec env (fetchData false w)) = vertex_history w /\
  vertex_access_codes (exec env (fetchData false w)) = vertex_access_codes w.
Proof.
  unfold exec. rewrite fetchData_local. cbn.
  destruct (vertex_history w) as [[h|]|] eqn:E1; cbn;
    destruct (vertex_access_codes w) as [[c|]|] eqn:E2; cbn;
    rewrite ?E1, ?E2; repeat split.
Qed.

(** ** The startup loader *)



Lemma startup_remote_storage (env : Env) (w : World) :
  vertex_history (exec env (startup true w)) = vertex_history w /\
  vertex_access_codes (exec env (startup true w)) = vertex_access_codes w.
Proof.
  rewrite (proj1 (startup_eq true env w)).
  destruct (checkSession_frame (exec env (fetchData true w))) as (_ & _ & -> & -> & _).
  unfold exec. rewrite fetchData_remote. cbn [fst]. unfold historyLoaded, codesLoaded.
  destruct (supabase.error (env select_history 1)), (supabase.data (env select_history 1)),
           (supabase.error (env select_access_codes 0)),
           (supabase.data (env select_access_codes 0)); split; reflexivity.
Qed.



(** X9. With local storage, startup sends nothing, writes nothing and ends
    with the loading flag off.  A key that is missing, or whose text does not
    parse, leaves its collection as it was, and the other key is still read:
    a corrupt history does not keep the access codes from loading, nor the
    other way round. *)
Theorem startup_local (env : Env) (w : World) :
  calls env (startup false w) = [] /\
  isLoadingData (exec env (startup false w)) = false /\
  (vertex_history w = None \/ vertex_history w = Some unparsable ->
     history (exec env (startup false w)) = history w) /\
  (vertex_access_codes w = None \/ vertex_access_codes w = Some unparsable ->
     accessCodes (exec env (startup false w)) = accessCodes w) /\
  (forall c, vertex_access_codes w = Some (JSON_stringify c) ->
     accessCodes (exec env (startup false w)) = c) /\
  vertex_history (exec env (startup false w)) = vertex_history w /\
  vertex_access_codes (exec env (startup false w)) = vertex_access_codes w.
Proof.
  destruct (startup_eq false env w) as (-> & ->).
  destruct (checkSession_frame (exec env (fetchData false w))) as (-> & -> & -> & -> & ->).
  destruct (fetchData_local_read env w) as (-> & -> & -> & ->).
  split; [reflexivity|]. split; [reflexivity|]. repeat split.
  - intros [-> | ->]; reflexivity.
  - intros [-> | ->]; reflexivity.
  - intros c ->. reflexivity.
Qed.

Lemma startup_local_witness :
  accessCodes (exec (online 0%float 0%float (sampleResult "t"))
                    (startup false
                       (initial None (Some unparsable) (Some (JSON_stringify [sampleCode])))))
  = [sampleCode].
Proof.
  apply (proj1 (proj2 (proj2 (proj2 (proj2
           (startup_local (online 0%float 0%float (sampleResult "t"))
              (initial None (Some unparsable) (Some (JSON_stringify [sampleCode]))))))))
           [sampleCode] eq_refl).
Defined.

(** ** Generated codes *)

Lemma append_assoc (a b c : string) : ((a ++ b) ++ c = a ++ (b ++ c))%string.
Proof. induction a as [|x a IH]; cbn; [reflexivity | now rewrite IH]. Qed.

Lemma append_nil_r (a : string) : (a ++ "" = a)%string.
Proof. induction a as [|x a IH]; cbn; [reflexivity | now rewrite IH]. Qed.

Lemma length_append (a b : string) :
  String.length (a ++ b)%string = String.length a + String.length b.
Proof. induction a as [|x a IH]; cbn; [reflexivity | now rewrite IH]. Qed.

Lemma allIn_append (alphabet a b : string) :
  allIn alphabet (a ++ b)%string = allIn alphabet a && allIn alphabet b.
Proof.
  induction a as [|x a IH]; cbn; [reflexivity|].
  destruct (String.index 0 (String x "") alphabet); [exact IH | reflexivity].
Qed.

Lemma asciiUpperCase_append (a b : string) :
  JS.asciiUpperCase (a ++ b)%string = (JS.asciiUpperCase a ++ JS.asciiUpperCase b)%string.
Proof. induction a as [|x a IH]; cbn; [reflexivity | now rewrite IH]. Qed.

Lemma randomCode_run (env : Env) (i n : nat) (acc : string) :
  fst (run env n (randomCode i acc)) = (acc ++ draws env n i)%string.
Proof.
  revert n acc. induction i as [|i IH]; intros n acc; cbn.
  - now rewrite append_nil_r.
  - specialize (IH (S n)
        (acc ++ JS.charAt chars (JS.floor_index (env Math_random n * length_number chars)%float))%string).
    destruct (run env (S n) _) as [a t]. cbn in *. rewrite IH.
    unfold drawIndex. apply append_assoc.
Qed.

Lemma charAt_chars (idx : option Z) :
  String.length (JS.charAt chars idx) <= 1 /\
  allIn chars (JS.charAt chars idx) = true /\
  JS.asciiUpperCase (JS.charAt chars idx) = JS.charAt chars idx.
Proof.
  destruct idx as [z|]; cbn; [|auto].
  destruct (0 <=? z)%Z; [|cbn; auto].
  generalize (Z.to_nat z). intros k.
  do 36 (destruct k as [|k]; [cbn; auto|]).
  cbn. auto.
Qed.

Lemma charAt_chars_inside (z : Z) :
  (0 <= z < 36)%Z -> String.length (JS.charAt chars (Some z)) = 1.
Proof.
  intros Hz. unfold JS.charAt.
  destruct (Z.leb_spec 0 z) as [_|]; [|lia].
  assert (Hk : Z.to_nat z < 36) by lia. revert Hk.
  generalize (Z.to_nat z). intros k Hk.
  do 36 (destruct k as [|k]; [reflexivity|]).
  lia.
Qed.

Lemma draws_alphabet (env : Env) (i n : nat) :
  String.length (draws env n i) <= i /\
  allIn chars (draws env n i) = true /\
  JS.asciiUpperCase (draws env n i) = draws env n i.
Proof.
  revert n. induction i as [|i IH]; intros n; cbn [draws]; [cbn; auto|].
  destruct (IH (S n)) as (Hl & Ha & Hu).
  destruct (charAt_chars (drawIndex env n)) as (Cl & Ca & Cu).
  rewrite length_append, allIn_append, asciiUpperCase_append, Ca, Ha, Cu, Hu.
  repeat split. lia.
Qed.

Lemma draws_full (env : Env) (i n : nat) :
  (forall k, n <= k < n + i ->
     exists z, drawIndex env k = Some z /\ (0 <= z < 36)%Z) ->
  String.length (draws env n i) = i.
Proof.
  revert n. induction i as [|i IH]; intros n Hall; cbn [draws]; [reflexivity|].
  rewrite length_append.
  destruct (Hall n) as (z & -> & Hz); [lia|].
  rewrite (charAt_chars_inside z Hz), IH; [reflexivity|].
  intros k Hk. apply Hall. lia.
Qed.

Lemma isAscii_append (a b : string) :
  JS.isAscii (a ++ b)%string = JS.isAscii a && JS.isAscii b.
Proof.
  induction a as [|x a IH]; cbn [append JS.isAscii]; [reflexivity|].
  now rewrite IH, andb_assoc.
Qed.

Lemma charAt_chars_ascii (idx : option Z) : JS.isAscii (JS.charAt chars idx) = true.
Proof.
  destruct idx as [z|]; cbn; [|reflexivity].
  destruct (0 <=? z)%Z; [|reflexivity].
  generalize (Z.to_nat z). intros k.
  do 36 (destruct k as [|k]; [reflexivity|]).
  reflexivity.
Qed.

Lemma draws_ascii (env : Env) (i n : nat) : JS.isAscii (draws env n i) = true.
Proof.
  revert n. induction i as [|i IH]; intros n; cbn [draws]; [reflexivity|].
  now rewrite isAscii_append, charAt_chars_ascii, IH.
Qed.

Lemma drawnCode_draws (env : Env) : drawnCode env = draws env 0 8.
Proof. unfold drawnCode, exec. now rewrite randomCode_run. Qed.

(** X10. Whatever [Math.random] answers, the code [generateCode] draws has
    at most 8 characters, every one of them from the 36 of [chars], and is
    its own upper case, so it can be typed back through the access-code
    input unchanged.  It has exactly 8 characters when each of the eight
    positions read falls inside [chars]. *)
Theorem drawnCode_alphabet (env : Env) (days : float) :
  String.length (code (newCode env days)) <= 8 /\
  allIn chars (code (newCode env days)) = true /\
  JS.asciiUpperCase (code (newCode env days)) = code (newCode env days) /\
  ((forall k, k < 8 -> exists z, drawIndex env k = Some z /\ (0 <= z < 36)%Z) ->
   String.length (code (newCode env days)) = 8) /\
  JS.isAscii (code (newCode env days)) = true /\
  (forall toUpperCase : string -> string,
     JS.upperOnAscii toUpperCase ->
     toUpperCase (code (newCode env days)) = code (newCode env days)).
Proof.
  cbn [code newCode]. rewrite drawnCode_draws.
  destruct (draws_alphabet env 8 0) as (Hl & Ha & Hu).
  pose proof (draws_ascii env 8 0) as Hascii.
  repeat split; trivial.
  - intros Hall. apply draws_full. intros k Hk. apply Hall. lia.
  - intros f Hf. rewrite (Hf _ Hascii). exact Hu.
Qed.

Lemma drawnCode_alphabet_witness :
  String.length (code (newCode (online 0%float 0.5%float (sampleResult "t")) 7%float)) = 8.
Proof.
  apply (drawnCode_alphabet (online 0%float 0.5%float (sampleResult "t")) 7%float).
  intros k _. exists 18%Z. split; [reflexivity | lia].
Defined.

(** X11. A code that was generated and saved logs in.  After a
    [generateCode] whose write succeeded, typing a string whose upper case is
    the drawn code and submitting it at a time before the new code's expiry
    makes the session [user]; typing the drawn code itself does so whenever
    the engine's [toUpperCase] is the ASCII one on ASCII strings. *)
Theorem generated_code_logs_in (toUpperCase : string -> string) (cfg : bool)
    (env env2 : Env) (days : float) (w : World) (s : string) :
  cfg = false \/ supabase.error (env (insert_access_codes (newRow env days)) 9) = None ->
  toUpperCase s = code (newCode env days) ->
  PrimFloat.ltb (env2 Date_now 0) (expiry (newCode env days)) = true ->
  authStatus (exec env2 (handleUserLogin
                           (onLoginCodeChange toUpperCase s
                              (exec env (generateCode cfg days w))))) = user /\
  (JS.upperOnAscii toUpperCase ->
   authStatus (exec env2 (handleUserLogin
                            (onLoginCodeChange toUpperCase (code (newCode env days))
                               (exec env (generateCode cfg days w))))) = user).
Proof.
  intros Hok Hs Hlt.
  assert (Hacc : accessCodes (exec env (generateCode cfg days w))
                 = newCode env days :: accessCodes w).
  { unfold exec. destruct Hok as [-> | Hok].
    - rewrite generateCode_local. reflexivity.
    - destruct cfg; [rewrite generateCode_remote, Hok | rewrite generateCode_local];
        reflexivity. }
  split.
  - rewrite handleUserLogin_success; [reflexivity|].
    exists (newCode env days). cbn [accessCodes loginCode onLoginCodeChange setLoginCode].
    rewrite Hacc. split; [left; reflexivity | auto].
  - intros Hup.
    assert (Hfix : toUpperCase (code (newCode env days)) = code (newCode env days)).
    { cbn [code newCode]. rewrite drawnCode_draws.
      rewrite (Hup _ (draws_ascii env 8 0)). apply draws_alphabet. }
    rewrite handleUserLogin_success; [reflexivity|].
    exists (newCode env days). cbn [accessCodes loginCode onLoginCodeChange setLoginCode].
    rewrite Hacc. split; [left; reflexivity | auto].
Qed.

Lemma generated_code_logs_in_witness :
  authStatus (exec (online (nov2025 + 1000)%float 0%float (sampleResult "t"))
                (handleUserLogin
                   (onLoginCodeChange JS.asciiUpperCase "ssssssss"
                      (exec (online nov2025 0.5%float (sampleResult "t"))
                            (generateCode true 3%float (initial None None None)))))) = user.
Proof.
  refine (proj1 (generated_code_logs_in JS.asciiUpperCase true
                   (online nov2025 0.5%float (sampleResult "t"))
                   (online (nov2025 + 1000)%float 0%float (sampleResult "t")) 3%float
                   (initial None None None) "ssssssss" _ _ _)).
  - right; reflexivity.
  - reflexivity.
  - reflexivity.
Defined.

(** ** Revoked and expired codes *)

Lemma keepOthers_filter (code0 : string) (codes : list AccessCode) (c : AccessCode) :
  In c (filter (keepOthers code0) codes) <-> In c codes /\ code c <> code0.
Proof.
  rewrite filter_In. unfold keepOthers.
  destruct (String.eqb_spec (code c) code0); cbn; intuition congruence.
Qed.

(** X12. Deleting a code revokes it.  After a [deleteCode] whose write
    succeeded, the collection is the old one without every access code of
    that value (duplicates included), the others in their order; and a login
    with a text whose upper case ([toUpperCase], whatever function it is) is
    that value is refused at any time with "Invalid or Expired Access Code"
    and leaves the status as it was. *)
Theorem deleteCode_revokes (toUpperCase : string -> string) (cfg : bool) (env : Env) (code0 : string) (w : World) :
  cfg = false \/ supabase.error (env (delete_access_codes code0) 0) = None ->
  accessCodes (exec env (deleteCode cfg code0 w)) = filter (keepOthers code0) (accessCodes w) /\
  (forall c, In c (accessCodes (exec env (deleteCode cfg code0 w))) <->
             In c (accessCodes w) /\ code c <> code0) /\
  (forall (env2 : Env) (s : string),
     toUpperCase s = code0 ->
     authStatus (exec env2 (handleUserLogin
                              (onLoginCodeChange toUpperCase s (exec env (deleteCode cfg code0 w)))))
       = authStatus w /\
     error (exec env2 (handleUserLogin
                         (onLoginCodeChange toUpperCase s (exec env (deleteCode cfg code0 w)))))
       = Some "Invalid or Expired Access Code").
Proof.
  intros Hok.
  assert (Hacc : accessCodes (exec env (deleteCode cfg code0 w))
                 = filter (keepOthers code0) (accessCodes w)).
  { unfold exec. destruct Hok as [-> | Hok].
    - rewrite deleteCode_local. reflexivity.
    - destruct cfg; [rewrite deleteCode_remote, Hok | rewrite deleteCode_local]; reflexivity. }
  assert (Hauth : authStatus (exec env (deleteCode cfg code0 w)) = authStatus w)
    by apply deleteCode_cases.
  split; [exact Hacc|]. split.
  - intros c. rewrite Hacc. apply keepOthers_filter.
  - intros env2 s Hs. rewrite handleUserLogin_failure.
    + cbn. auto.
    + intros (c & Hin & Hc & _).
      cbn [accessCodes loginCode onLoginCodeChange setLoginCode] in Hin, Hc.
      rewrite Hacc in Hin. apply keepOthers_filter in Hin as (_ & Hne). congruence.
Qed.

Lemma deleteCode_revokes_witness :
  error (exec (online 1000%float 0%float (sampleResult "t"))
           (handleUserLogin
              (onLoginCodeChange JS.asciiUpperCase "ab12cd34"
                 (exec (online 5%float 0%float (sampleResult "t"))
                       (deleteCode true "AB12CD34" (loginScreen ""))))))
  = Some "Invalid or Expired Access Code".
Proof.
  apply (proj2 (proj2 (deleteCode_revokes JS.asciiUpperCase true (online 5%float 0%float (sampleResult "t"))
                         "AB12CD34" (loginScreen "") (or_intror eq_refl)))
           (online 1000%float 0%float (sampleResult "t")) "ab12cd34" eq_refl).
Defined.

Lemma SFcompare_antisym (x y : spec_float) :
  SFcompare y x = option_map CompOpp (SFcompare x y).
Proof.
  destruct x as [sx|sx| |sx mx ex], y as [sy|sy| |sy my ey]; cbn; try reflexivity;
    try (destruct sx; reflexivity); try (destruct sy; reflexivity);
    try (destruct sx, sy; reflexivity).
  change PosDef.Pos.compare_cont with Pos.compare_cont.
  assert (Hm : Pos.compare_cont Eq my mx = CompOpp (Pos.compare_cont Eq mx my))
    by (rewrite Pos.compare_cont_antisym; reflexivity).
  rewrite (Z.compare_antisym ex ey), Hm.
  destruct sx, sy; try reflexivity;
    destruct (ex ?= ey)%Z; cbn; try reflexivity;
    destruct (Pos.compare_cont Eq mx my); reflexivity.
Qed.

Lemma leb_not_ltb (a b : float) : PrimFloat.leb a b = true -> PrimFloat.ltb b a = false.
Proof.
  rewrite leb_spec, ltb_spec. unfold SFleb, SFltb.
  rewrite (SFcompare_antisym (Prim2SF a) (Prim2SF b)).
  destruct (SFcompare (Prim2SF a) (Prim2SF b)) as [[| |]|]; cbn; congruence.
Qed.

Lemma ltb_nan_r (a : float) : PrimFloat.ltb a nan = false.
Proof.
  rewrite ltb_spec. unfold SFltb.
  rewrite (SFcompare_antisym (Prim2SF nan) (Prim2SF a)). reflexivity.
Qed.

(** X13. An access code is valid strictly before its expiry.  If every
    code that equals the upper case of the typed text ([toUpperCase],
    whatever function it is) has its expiry at or before the clock's reading
    (the expiry instant itself included), or an expiry that is not a number,
    the login is refused and nothing but the error changes. *)
Theorem login_at_expiry_refused (toUpperCase : string -> string) (env : Env) (w : World) (s : string) :
  (forall c, In c (accessCodes w) -> code c = toUpperCase s ->
     PrimFloat.leb (expiry c) (env Date_now 0) = true \/ expiry c = nan) ->
  exec env (handleUserLogin (onLoginCodeChange toUpperCase s w))
  = setError (Some "Invalid or Expired Access Code") (onLoginCodeChange toUpperCase s w).
Proof.
  intros Hall. apply handleUserLogin_failure.
  intros (c & Hin & Hc & Hlt).
  cbn [accessCodes loginCode onLoginCodeChange setLoginCode] in Hin, Hc.
  destruct (Hall c Hin Hc) as [Hle | Hnan].
  - apply leb_not_ltb in Hle. congruence.
  - rewrite Hnan, ltb_nan_r in Hlt. discriminate.
Qed.

Lemma login_at_expiry_refused_witness :
  authStatus (exec (online 3600000%float 0%float (sampleResult "t"))
                (handleUserLogin (onLoginCodeChange JS.asciiUpperCase "AB12CD34" (loginScreen ""))))
  = unauthorized.
Proof.
  rewrite (login_at_expiry_refused JS.asciiUpperCase (online 3600000%float 0%float (sampleResult "t"))
             (loginScreen "") "AB12CD34").
  - reflexivity.
  - intros c [<-|[]] _. left. reflexivity.
Defined.

(** * services/geminiService *)

(** ** The string helpers *)

Lemma split_lacks (sep : ascii) (s : string) :
  JSString.lacks sep s = true -> JSString.split sep s = [s].
Proof.
  induction s as [|c s IH]; cbn; [reflexivity|].
  destruct (Ascii.eqb c sep); cbn; [discriminate|].
  intros H. now rewrite (IH H).
Qed.

Lemma split_first (sep : ascii) (a b : string) :
  JSString.lacks sep a = true ->
  JSString.split sep (a ++ String sep b)%string = a :: JSString.split sep b.
Proof.
  induction a as [|c a IH]; cbn.
  - intros _. now rewrite Ascii.eqb_refl.
  - destruct (Ascii.eqb c sep); cbn; [discriminate|].
    intros H. now rewrite (IH H).
Qed.

(** X14. The image data sent to the model is the text between the first
    and the second comma of the staged string (up to its end when there is
    no second comma), so the header of a data URL is cut off, and whatever
    follows a second comma is dropped too.  A string without a comma, or with
    nothing between its first comma and the next comma or the end, is sent
    whole. *)
Theorem payload_dataURL (header body rest : string) :
  JSString.lacks "," header = true ->
  JSString.lacks "," body = true ->
  geminiService.payload header = header /\
  geminiService.payload (header ++ String "," body)%string
    = (if body =? "" then (header ++ String "," body)%string else body) /\
  geminiService.payload (header ++ String "," (body ++ String "," rest))%string
    = (if body =? "" then (header ++ String "," (body ++ String "," rest))%string
       else body).
Proof.
  intros Hh Hb. unfold geminiService.payload. split; [|split].
  - now rewrite (split_lacks _ _ Hh).
  - rewrite (split_first "," header body Hh), (split_lacks _ _ Hb). reflexivity.
  - rewrite (split_first "," header _ Hh), (split_first "," body rest Hb). reflexivity.
Qed.

Lemma payload_dataURL_witness :
  geminiService.payload "data:image/jpeg;base64,AAAA" = "AAAA" /\
  geminiService.payload "a,b,c" = "b" /\
  geminiService.payload "a,,c" = "a,,c".
Proof.
  split; [|split].
  - apply (proj1 (proj2 (payload_dataURL "data:image/jpeg;base64" "AAAA" ""
                           eq_refl eq_refl))).
  - apply (proj2 (proj2 (payload_dataURL "a" "b" "c" eq_refl eq_refl))).
  - apply (proj2 (proj2 (payload_dataURL "a" "" "c" eq_refl eq_refl))).
Defined.







Lemma prefix_self (pat s : string) : String.prefix pat (pat ++ s)%string = true.
Proof.
  induction pat as [|c pat IH]; cbn; [now destruct s|].
  destruct (Ascii.ascii_dec c c); [exact IH | contradiction].
Qed.
















(** White space outside ASCII is stripped as well: a no-break space (U+00A0)
    and a byte order mark (U+FEFF) before the text, a line separator (U+2028)
    and an ideographic space (U+3000) after it.  A character that only
    shares a byte with one of them, as U+00E0 shares the byte 160 with the
    no-break space, stays. *)
Example cleanJson_unicode :
  geminiService.cleanJson
    (JSString.bytes [194; 160] ++ JSString.bytes [239; 187; 191] ++ "[5]"
     ++ JSString.bytes [226; 128; 168] ++ JSString.bytes [227; 128; 128])%string
  = "[5]" /\
  JSString.trim (JSString.bytes [194; 160] ++ "{}" ++ JSString.bytes [194; 160])%string = "{}" /\
  JSString.trim (JSString.bytes [195; 160] ++ "x" ++ JSString.bytes [195; 160])%string
  = (JSString.bytes [195; 160] ++ "x" ++ JSString.bytes [195; 160])%string.
Proof. vm_compute. repeat split. Qed.

(** ** The call to the model *)

Lemma prefix_iff (pat s : string) :
  String.prefix pat s = true <-> exists b, s = (pat ++ b)%string.
Proof.
  split.
  - revert s. induction pat as [|c pat IH]; intros s H.
    + exists s. reflexivity.
    + destruct s as [|d s]; cbn in H; [discriminate|].
      destruct (Ascii.ascii_dec c d) as [<-|]; [|discriminate].
      destruct (IH s H) as (b & ->). exists b. reflexivity.
  - intros (b & ->). apply prefix_self.
Qed.

Lemma includes_iff (pat s : string) :
  JSString.includes pat s = true <-> exists a b, s = (a ++ pat ++ b)%string.
Proof.
  split.
  - induction s as [|c s IH]; cbn [JSString.includes]; intros H;
      apply orb_true_iff in H as [H|H].
    + apply prefix_iff in H as (b & Hb). exists "", b. exact Hb.
    + discriminate.
    + apply prefix_iff in H as (b & Hb). exists "", b. exact Hb.
    + destruct (IH H) as (a & b & ->). exists (String c a), b. reflexivity.
  - intros (a & b & ->). induction a as [|c a IH].
    + cbn [append]. destruct (pat ++ b)%string eqn:E; cbn [JSString.includes];
        rewrite <- E, prefix_self; reflexivity.
    + cbn [append JSString.includes]. rewrite IH. apply orb_true_r.
Qed.

Lemma analyzeChart_configured_not (prompt : string) (key : option string)
    (generateContent : geminiService.GenerateContentParameters ->
                       geminiService.GenerateContentResponse + JS.Error)
    (parse : string -> AnalysisResult + JS.Error) (toISOString img : string) :
  JS.truthy key = false ->
  fst (geminiService.analyzeChart prompt key generateContent parse toISOString img)
  = inr (JS.mkError (Some geminiService.notConfigured)).
Proof.
  intros Hk. unfold geminiService.analyzeChart. rewrite Hk. reflexivity.
Qed.

(** X16. Without an API key (unset or empty) [analyzeChart] rejects with
    "GEMINI_API_KEY is not configured. Please add it to your environment
    variables." and sends nothing to the model, whatever the image. *)
Theorem analyzeChart_not_configured (prompt : string) (key : option string)
    (generateContent : geminiService.GenerateContentParameters ->
                       geminiService.GenerateContentResponse + JS.Error)
    (parse : string -> AnalysisResult + JS.Error) (toISOString img : string) :
  JS.truthy key = false ->
  geminiService.analyzeChart prompt key generateContent parse toISOString img
  = (inr (JS.mkError (Some "GEMINI_API_KEY is not configured. Please add it to your environment variables.")),
     []).
Proof.
  intros Hk. unfold geminiService.analyzeChart. rewrite Hk. reflexivity.
Qed.

Lemma analyzeChart_not_configured_witness :
  geminiService.analyzeChart "p" (Some "") (answers "{}") parsesAll "now" "img"
  = (inr (JS.mkError (Some geminiService.notConfigured)), []).
Proof.
  apply (analyzeChart_not_configured "p" (Some "") (answers "{}") parsesAll "now" "img").
  reflexivity.
Defined.

Lemma analyzeChart_configured (prompt : string) (key : option string)
    (generateContent : geminiService.GenerateContentParameters ->
                       geminiService.GenerateContentResponse + JS.Error)
    (parse : string -> AnalysisResult + JS.Error) (toISOString img : string) :
  JS.truthy key = true ->
  geminiService.analyzeChart prompt key generateContent parse toISOString img
  = (match generateContent (geminiService.parameters prompt img) with
     | inl response =>
         if negb (JS.truthy (geminiService.response_text response)) then
           inr (geminiService.rethrow (JS.mkError (Some geminiService.noResponseReceived)))
         else
           match parse (geminiService.cleanJson
                          (JS.or_else (geminiService.response_text response) "")) with
           | inl parsed =>
               inl (Types.mkAnalysisResult (Types.signal parsed) (Types.technical parsed)
                                           (Types.fundamental parsed) toISOString)
           | inr caught => inr (geminiService.rethrow caught)
           end
     | inr caught => inr (geminiService.rethrow caught)
     end,
     [geminiService.parameters prompt img]).
Proof.
  intros Hk. unfold geminiService.analyzeChart. rewrite Hk. reflexivity.
Qed.

(** X17. With a key, [analyzeChart] sends the one request and every
    failure behind it rejects.  An error of the model or of the parser whose
    message contains "API_KEY_INVALID" is replaced by "Invalid Gemini API
    Key. Please check your configuration."; any other error is passed on as
    it is; an answer with no text, or an empty one, rejects with "No response
    received from AI model." and is never parsed. *)
Theorem analyzeChart_failures (prompt : string) (key : option string)
    (generateContent : geminiService.GenerateContentParameters ->
                       geminiService.GenerateContentResponse + JS.Error)
    (parse : string -> AnalysisResult + JS.Error) (toISOString img : string) :
  JS.truthy key = true ->
  snd (geminiService.analyzeChart prompt key generateContent parse toISOString img)
    = [geminiService.parameters prompt img] /\
  (forall caught : JS.Error,
     generateContent (geminiService.parameters prompt img) = inr caught \/
     (exists answer t,
        generateContent (geminiService.parameters prompt img) = inl answer /\
        geminiService.response_text answer = Some t /\ t <> "" /\
        parse (geminiService.cleanJson t) = inr caught) ->
     ((exists a b, JS.message caught = Some (a ++ "API_KEY_INVALID" ++ b)%string) ->
      fst (geminiService.analyzeChart prompt key generateContent parse toISOString img)
        = inr (JS.mkError (Some "Invalid Gemini API Key. Please check your configuration."))) /\
     (~ (exists a b, JS.message caught = Some (a ++ "API_KEY_INVALID" ++ b)%string) ->
      fst (geminiService.analyzeChart prompt key generateContent parse toISOString img)
        = inr caught)) /\
  (forall answer,
     generateContent (geminiService.parameters prompt img) = inl answer ->
     JS.truthy (geminiService.response_text answer) = false ->
     fst (geminiService.analyzeChart prompt key generateContent parse toISOString img)
       = inr (JS.mkError (Some "No response received from AI model."))).
Proof.
  intros Hk.
  rewrite (analyzeChart_configured prompt key generateContent parse toISOString img Hk).
  cbn [fst snd]. split; [reflexivity|]. split.
  - intros caught Hcase.
    assert (Hout : match generateContent (geminiService.parameters prompt img) with
                   | inl response =>
                       if negb (JS.truthy (geminiService.response_text response)) then
                         inr (geminiService.rethrow
                                (JS.mkError (Some geminiService.noResponseReceived)))
                       else
                         match parse (geminiService.cleanJson
                                        (JS.or_else (geminiService.response_text response) ""))
                         with
                         | inl parsed =>
                             inl (Types.mkAnalysisResult (Types.signal parsed)
                                    (Types.technical parsed) (Types.fundamental parsed)
                                    toISOString)
                         | inr caught0 => inr (geminiService.rethrow caught0)
                         end
                   | inr caught0 => inr (geminiService.rethrow caught0)
                   end = inr (geminiService.rethrow caught)).
    { destruct Hcase as [-> | (answer & t & -> & Ht & Hne & Hp)]; [reflexivity|].
      rewrite Ht. cbn [JS.truthy JS.or_else].
      destruct (String.eqb_spec t ""); [contradiction|]. cbn [negb].
      rewrite Hp. reflexivity. }
    rewrite Hout. unfold geminiService.rethrow. split.
    + intros (a & b & Hm). rewrite Hm.
      assert (Hi : JSString.includes "API_KEY_INVALID" (a ++ "API_KEY_INVALID" ++ b) = true)
        by (apply includes_iff; eauto).
      now rewrite Hi.
    + intros Hn. destruct (JS.message caught) as [m|] eqn:Hm; [|reflexivity].
      destruct (JSString.includes "API_KEY_INVALID" m) eqn:Hi; [|reflexivity].
      exfalso. apply Hn. apply includes_iff in Hi as (a & b & ->). eauto.
  - intros answer -> Ht. rewrite Ht. reflexivity.
Qed.

Lemma analyzeChart_failures_witness :
  fst (geminiService.analyzeChart "p" (Some "key")
         (rejects "400 API_KEY_INVALID: check the key") parsesAll "now" "img")
  = inr (JS.mkError (Some geminiService.invalidKey)).
Proof.
  apply (proj1 (proj1 (proj2 (analyzeChart_failures "p" (Some "key")
           (rejects "400 API_KEY_INVALID: check the key") parsesAll "now" "img" eq_refl))
           (JS.mkError (Some "400 API_KEY_INVALID: check the key"))
           (or_introl eq_refl))).
  exists "400 ", ": check the key". reflexivity.
Defined.

(** X18. With a key, a model that answers with a text and a parser that
    accepts the cleaned text, [analyzeChart] resolves with the parsed signal,
    technical and fundamental fields and with the clock's ISO string as the
    timestamp, whatever timestamp the model's text carried.  The request it
    sent names the model "gemini-3-flash-preview", declares the image as
    image/jpeg and carries the payload of the staged string. *)
Theorem analyzeChart_resolves (prompt : string) (key : option string)
    (generateContent : geminiService.GenerateContentParameters ->
                       geminiService.GenerateContentResponse + JS.Error)
    (parse : string -> AnalysisResult + JS.Error) (toISOString img : string)
    (answer : geminiService.GenerateContentResponse) (t : string)
    (parsed : AnalysisResult) :
  JS.truthy key = true ->
  generateContent (geminiService.parameters prompt img) = inl answer ->
  geminiService.response_text answer = Some t -> t <> "" ->
  parse (geminiService.cleanJson t) = inl parsed ->
  (exists data,
     geminiService.analyzeChart prompt key generateContent parse toISOString img
       = (inl data, [geminiService.parameters prompt img]) /\
     Types.timestamp data = toISOString /\
     Types.signal data = Types.signal parsed /\
     Types.technical data = Types.technical parsed /\
     Types.fundamental data = Types.fundamental parsed) /\
  geminiService.model (geminiService.parameters prompt img) = "gemini-3-flash-preview" /\
  geminiService.mimeType (geminiService.inlineData (geminiService.parameters prompt img))
    = "image/jpeg" /\
  geminiService.data (geminiService.inlineData (geminiService.parameters prompt img))
    = geminiService.payload img.
Proof.
  intros Hk Hg Ht Hne Hp. split; [|repeat split].
  rewrite (analyzeChart_configured prompt key generateContent parse toISOString img Hk).
  rewrite Hg, Ht. cbn [negb JS.truthy JS.or_else].
  destruct (String.eqb_spec t ""); [contradiction|]. cbn [negb]. rewrite Hp.
  eexists. split; [reflexivity|]. repeat split.
Qed.

Lemma analyzeChart_resolves_witness :
  exists data,
    geminiService.analyzeChart "p" (Some "key") (answers "{}") parsesAll "now"
                               "data:image/jpeg;base64,AAAA"
      = (inl data, [geminiService.parameters "p" "data:image/jpeg;base64,AAAA"]) /\
    Types.timestamp data = "now".
Proof.
  destruct (analyzeChart_resolves "p" (Some "key") (answers "{}") parsesAll "now"
              "data:image/jpeg;base64,AAAA"
              (geminiService.mkContentResponse (Some "{}")) "{}" (sampleResult "model")
              eq_refl eq_refl eq_refl) as ((data & He & Hts & _) & _).
  - discriminate.
  - reflexivity.
  - exists data. split; assumption.
Defined.

(** ** The component over the service *)

(** X19. [runAnalysis] over the service module.  Without an API key the
    error shown is the service's "GEMINI_API_KEY is not configured..."
    message, nothing is written and the history and the result stay as they
    were.  When the model answers and the answer parses, the entry put at the
    head of the history carries the parsed signal and the clock's ISO string
    as timestamp, and with the remote store the row inserted carries that
    entry and that same timestamp. *)
Theorem runAnalysis_with_service (cfg : bool) (prompt : string) (key : option string)
    (generateContent : geminiService.GenerateContentParameters ->
                       geminiService.GenerateContentResponse + JS.Error)
    (parse : string -> AnalysisResult + JS.Error) (toISOString : string)
    (env : Env) (w : World) (img : string) :
  image w = Some img ->
  JS.truthy (Some img) = true ->
  (JS.truthy key = false ->
   error (exec (withService prompt key generateContent parse toISOString env)
               (runAnalysis cfg w))
     = Some "GEMINI_API_KEY is not configured. Please add it to your environment variables." /\
   history (exec (withService prompt key generateContent parse toISOString env)
                 (runAnalysis cfg w)) = history w /\
   result (exec (withService prompt key generateContent parse toISOString env)
                (runAnalysis cfg w)) = result w /\
   calls (withService prompt key generateContent parse toISOString env)
         (runAnalysis cfg w) = [analyzeChart img]) /\
  (forall (answer : geminiService.GenerateContentResponse) (t : string)
          (parsed : AnalysisResult),
     JS.truthy key = true ->
     generateContent (geminiService.parameters prompt img) = inl answer ->
     geminiService.response_text answer = Some t -> t <> "" ->
     parse (geminiService.cleanJson t) = inl parsed ->
     exists data,
       history (exec (withService prompt key generateContent parse toISOString env)
                     (runAnalysis cfg w)) = JS.slice0 20 (data :: history w) /\
       Types.timestamp data = toISOString /\
       Types.signal data = Types.signal parsed /\
       calls (withService prompt key generateContent parse toISOString env)
             (runAnalysis cfg w)
         = analyzeChart img ::
           (if cfg then [insert_history (supabase.mkHistoryRow data toISOString)] else [])).
Proof.
  intros Hi Ht. set (env' := withService prompt key generateContent parse toISOString env).
  split.
  - intros Hk.
    assert (He : env' (analyzeChart img) 0
                 = inr (JS.mkError (Some geminiService.notConfigured))).
    { subst env'. unfold withService.
      now rewrite (analyzeChart_configured_not prompt key generateContent parse toISOString img Hk). }
    destruct (runAnalysis_failed cfg env' w img _ Hi Ht He) as (Hw & Hc).
    rewrite Hw, Hc. cbn. auto.
  - intros answer t parsed Hk Hg Htx Hne Hp.
    set (data := Types.mkAnalysisResult (Types.signal parsed) (Types.technical parsed)
                   (Types.fundamental parsed) toISOString).
    assert (He : env' (analyzeChart img) 0 = inl data).
    { subst env'. unfold withService.
      rewrite (analyzeChart_configured prompt key generateContent parse toISOString img Hk).
      cbn [fst]. rewrite Hg, Htx. cbn [negb JS.truthy JS.or_else].
      destruct (String.eqb_spec t ""); [contradiction|]. cbn [negb]. now rewrite Hp. }
    clearbody env'.
    exists data. split; [apply (runAnalysis_resolved cfg env' w img data Hi Ht He)|].
    split; [reflexivity|]. split; [reflexivity|].
    unfold calls, runAnalysis. rewrite Hi, Ht. cbn. rewrite He. destruct cfg; reflexivity.
Qed.

Lemma runAnalysis_with_service_witness :
  error (exec (withService "p" None (answers "{}") parsesAll "now"
                 (online 0%float 0%float (sampleResult "t")))
              (runAnalysis true staged))
  = Some geminiService.notConfigured.
Proof.
  apply (proj1 (runAnalysis_with_service true "p" None (answers "{}") parsesAll "now"
                  (online 0%float 0%float (sampleResult "t")) staged
                  "data:image/jpeg;base64,AAAA" eq_refl eq_refl) eq_refl).
Defined.

(** ** Flags and the shipped configuration *)

Lemma handle_flags (toUpperCase : string -> string) (cfg : bool) (env : Env) (w : World) (e : Event) :
  isAnalyzing w = false ->
  isAnalyzing (handle toUpperCase cfg w (e, env)) = false /\
  isLoadingData (handle toUpperCase cfg w (e, env)) = isLoadingData w.
Proof.
  intros Hf. destruct e; cbn [handle fst snd]; try (cbn; auto; fail).
  - rewrite handleUserLogin_eq. destruct (find _ _); cbn; auto.
  - unfold handleAdminLogin. destruct (adminCode w =? MASTER_CODE); cbn; auto.
  - unfold exec. destruct cfg;
      [rewrite generateCode_remote; cbn; destruct (supabase.error _)
      | rewrite generateCode_local]; cbn; auto.
  - unfold exec. destruct cfg;
      [rewrite deleteCode_remote; cbn; destruct (supabase.error _)
      | rewrite deleteCode_local]; cbn; auto.
  - unfold exec, runAnalysis. destruct (image w) as [img|]; [|cbn; auto].
    destruct (JS.truthy (Some img)); [|cbn; auto]. cbn.
    destruct (env (analyzeChart img) 0) as [data|err]; [destruct cfg|]; cbn; auto.
  - unfold exec, clearHistory. destruct cfg; cbn; [|auto].
    destruct (supabase.error _); cbn; auto.
  - unfold openHistoryItem. destruct (nth_error (history w) idx); cbn; auto.
Qed.

Lemma startup_flags (cfg : bool) (env : Env) (w : World) :
  isAnalyzing (exec env (startup cfg w)) = isAnalyzing w /\
  isLoadingData (exec env (startup cfg w)) = false.
Proof.
  rewrite (proj1 (startup_eq cfg env w)).
  unfold checkSession, sessionStorage.getItem.
  assert (Hf : isAnalyzing (exec env (fetchData cfg w)) = isAnalyzing w /\
               isLoadingData (exec env (fetchData cfg w)) = false).
  { unfold exec. destruct cfg.
    - rewrite fetchData_remote. cbn [fst]. unfold historyLoaded, codesLoaded.
      destruct (supabase.error (env select_history 1)), (supabase.data (env select_history 1)),
               (supabase.error (env select_access_codes 0)),
               (supabase.data (env select_access_codes 0)); cbn; auto.
    - rewrite fetchData_local. cbn.
      destruct (vertex_history w) as [[h|]|]; cbn;
        destruct (vertex_access_codes w) as [[c|]|]; cbn; auto. }
  destruct (vertex_session (exec env (fetchData cfg w))) as [s|]; [|exact Hf].
  destruct (s =? "admin"); [cbn; exact Hf|]. destruct (s =? "user"); cbn; exact Hf.
Qed.

(** X20. No spinner sticks.  After the startup effect and any sequence of
    events that have run to completion, the data-loading flag and the
    analyzing flag are both off: startup always ends its loading, and
    [runAnalysis] resets [isAnalyzing] whether the analysis resolved or
    rejected. *)
Theorem flags_settle (toUpperCase : string -> string) (cfg : bool) (env0 : Env) (marker : option string)
    (lsHistory : option (StoredText (list AnalysisResult)))
    (lsCodes : option (StoredText (list AccessCode))) (l : list (Event * Env)) :
  isAnalyzing (handleAll toUpperCase cfg l (exec env0 (startup cfg (initial marker lsHistory lsCodes))))
    = false /\
  isLoadingData (handleAll toUpperCase cfg l (exec env0 (startup cfg (initial marker lsHistory lsCodes))))
    = false.
Proof.
  destruct (startup_flags cfg env0 (initial marker lsHistory lsCodes)) as (Ha & Hl).
  cbn [isAnalyzing initial] in Ha.
  revert Ha Hl. generalize (exec env0 (startup cfg (initial marker lsHistory lsCodes))).
  induction l as [|[e env] rest IH]; intros w Ha Hl; cbn; [auto|].
  destruct (handle_flags toUpperCase cfg env w e Ha) as (Ha' & Hl').
  apply IH; congruence.
Qed.

Lemma handle_remote_storage (toUpperCase : string -> string) (env : Env) (w : World) (e : Event) :
  vertex_history (handle toUpperCase true w (e, env)) = vertex_history w /\
  vertex_access_codes (handle toUpperCase true w (e, env)) = vertex_access_codes w.
Proof.
  destruct e; cbn [handle fst snd]; try (cbn; auto; fail).
  - rewrite handleUserLogin_eq. destruct (find _ _); cbn; auto.
  - unfold handleAdminLogin. destruct (adminCode w =? MASTER_CODE); cbn; auto.
  - unfold exec. rewrite generateCode_remote. cbn. destruct (supabase.error _); cbn; auto.
  - unfold exec. rewrite deleteCode_remote. cbn. destruct (supabase.error _); cbn; auto.
  - unfold exec, runAnalysis. destruct (image w) as [img|]; [|cbn; auto].
    destruct (JS.truthy (Some img)); [|cbn; auto]. cbn.
    destruct (env (analyzeChart img) 0) as [data|err]; cbn; auto.
  - unfold exec, clearHistory. cbn. destruct (supabase.error _); cbn; auto.
  - unfold openHistoryItem. destruct (nth_error (history w) idx); cbn; auto.
Qed.

(** X21. In the configuration the repository ships
    ([isSupabaseConfigured] is [true]) the component never touches local
    storage: startup and every event leave both stored arrays exactly as they
    found them, so the browser-local fallback is never written. *)
Theorem shipped_never_writes_localStorage (toUpperCase : string -> string) (env0 : Env) (w : World)
    (l : list (Event * Env)) :
  vertex_history
    (handleAll toUpperCase supabase.isSupabaseConfigured l
       (exec env0 (startup supabase.isSupabaseConfigured w))) = vertex_history w /\
  vertex_access_codes
    (handleAll toUpperCase supabase.isSupabaseConfigured l
       (exec env0 (startup supabase.isSupabaseConfigured w))) = vertex_access_codes w.
Proof.
  change supabase.isSupabaseConfigured with true.
  destruct (startup_remote_storage env0 w) as (Hh & Hc).
  rewrite <- Hh, <- Hc.
  generalize (exec env0 (startup true w)). clear Hh Hc.
  induction l as [|[e env] rest IH]; intros w1; [split; reflexivity|].
  destruct (IH (handle toUpperCase true w1 (e, env))) as (E1 & E2).
  destruct (handle_remote_storage toUpperCase env w1 e) as (F1 & F2).
  split; [etransitivity; [exact E1 | exact F1] | etransitivity; [exact E2 | exact F2]].
Qed.
